(** * gemini-web: conversation state, request assembly and persistence

    A shallow embedding of [src/config.js] and [src/gemini-web/script.js].

    The program is a browser script: three global variables
    ([conversationHistory], [currentPersonality], [isLoading]), two
    [localStorage] entries, the text of the message box, and calls into the
    DOM and the network.  Here the globals, the storage entries and the
    message box are the fields of a record [world]; DOM and network calls
    are appended to an event log kept in the same record.  A JavaScript
    function becomes a computation in the monad [M], which threads the
    world and may end in a thrown error; a [try]/[catch] is [try_catch].
    The [async] function [sendMessage] is cut where it waits for [fetch]:
    [sendMessage_begin] runs up to the request, [sendMessage_resume] from
    the answer on, and what [fetch] answers is an argument.  The [for]
    loop of [loadSavedData] runs on fuel, of which it is given more than
    it can use ([replay_more_fuel], [replay_fuel_covers]).  The keyboard
    handler [handleKeyPress] returns what it does to the event and to
    the text area beside the world.

    Fragment of JavaScript that is modelled, and its limits:
    - values are JSON data plus [undefined]; numbers are integers (every
      number the program itself computes with is a length or an index);
      numeric strings are read as integer numerals only;
    - strings are byte strings holding UTF-8; [length] and indexing count
      UTF-16 code units, recovered from the UTF-8 lead bytes (indexing
      inside a character outside the BMP yields the whole character where
      JavaScript yields half of a surrogate pair);
    - a stored text is represented by the value [JSON.parse] gives for it,
      or as text that [JSON.parse] rejects: the JSON codec of the platform
      is taken to be correct and is not re-implemented;
    - DOM calls are logged and do not fail (the page, which is not part of
      the sources, is taken to have the elements the script asks for),
      except [document.querySelector], which raises on a selector that
      does not parse; the selector parser is the platform's and is not
      re-implemented: a selector built from an id without double quote,
      backslash and line break parses, every other id is taken to be
      refused (the few such ids that close the attribute selector and
      go on with a valid one are outside the fragment);
      [localStorage.setItem] does not run out of quota;
    - of the three writes of [updateContextInfo] the count and the
      rounded percentage are logged, the width of the bar is not;
    - the two object literals indexed by a persona id ([names] and
      [CONFIG.PERSONALITIES]) are searched for own properties; ids naming
      a member of [Object.prototype] are outside the fragment;
    - wording of engine-raised errors follows V8. *)

From Stdlib Require Import String Ascii List ZArith QArith Bool Lia.
From Stdlib Require Import DecimalString.
Import ListNotations.

Local Open Scope list_scope.
Local Open Scope string_scope.
Set Warnings "-register-all".

(* ================================================================== *)
(** * The JavaScript fragment *)
(* ================================================================== *)

Module JS.

(** ** Values and errors *)

Inductive value : Type :=
| VUndefined
| VNull
| VBool (b : bool)
| VNum (n : Z)
| VStr (s : string)
| VArr (elems : list value)
| VObj (fields : list (string * value)).

(** [DOMSyntaxError] is a [DOMException] whose [name] is
    ["SyntaxError"]. *)
Inductive error_name : Type :=
  PlainError | TypeError | SyntaxError | DOMSyntaxError.

(** An [Error] object: its constructor and its [message]. *)
Record error : Type := mkError { name : error_name; message : string }.

(** How a JavaScript evaluation ends. *)
Inductive outcome (A : Type) : Type :=
| Ok (a : A)
| Throw (e : error).
Arguments Ok {A} a.
Arguments Throw {A} e.

Definition obind {A B} (o : outcome A) (f : A -> outcome B) : outcome B :=
  match o with
  | Ok a => f a
  | Throw e => Throw e
  end.

Declare Scope js_scope.
Delimit Scope js_scope with js.
Notation "'let!' x ':=' o 'in' k" := (obind o (fun x => k))
  (at level 10, x name, o at level 100, k at level 200) : js_scope.
Local Open Scope js_scope.

(** ** Strings *)

Definition dquote : string := String (ascii_of_nat 34) EmptyString.

Definition string_of_Z (n : Z) : string := NilZero.string_of_int (Z.to_int n).

Fixpoint string_rev (s : string) : string :=
  match s with
  | EmptyString => EmptyString
  | String c t => string_rev t ++ String c EmptyString
  end.

(** White space and line terminators of ECMAScript, in UTF-8. *)
Definition ws1 (a : ascii) : bool :=
  let n := nat_of_ascii a in
  ((9 <=? n) && (n <=? 13) || (n =? 32))%nat.

(** U+00A0. *)
Definition ws2 (a b : ascii) : bool :=
  ((nat_of_ascii a =? 194) && (nat_of_ascii b =? 160))%nat.

(** U+1680, U+2000..U+200A, U+2028, U+2029, U+202F, U+205F, U+3000, U+FEFF. *)
Definition ws3 (a b c : ascii) : bool :=
  let x := nat_of_ascii a in
  let y := nat_of_ascii b in
  let z := nat_of_ascii c in
  ((x =? 225) && (y =? 154) && (z =? 128)
   || (x =? 226) && (y =? 128)
      && ((128 <=? z) && (z <=? 138) || (z =? 168) || (z =? 169) || (z =? 175))
   || (x =? 226) && (y =? 129) && (z =? 159)
   || (x =? 227) && (y =? 128) && (z =? 128)
   || (x =? 239) && (y =? 187) && (z =? 191))%nat.

Fixpoint trimStart (s : string) : string :=
  match s with
  | EmptyString => EmptyString
  | String a t =>
      if ws1 a then trimStart t
      else
        match t with
        | String b t2 =>
            if ws2 a b then trimStart t2
            else
              match t2 with
              | String c t3 => if ws3 a b c then trimStart t3 else s
              | EmptyString => s
              end
        | EmptyString => s
        end
  end.

(** The same on the reversed string: the bytes of a character come last
    byte first. *)
Fixpoint trimStart_rev (s : string) : string :=
  match s with
  | EmptyString => EmptyString
  | String a t =>
      if ws1 a then trimStart_rev t
      else
        match t with
        | String b t2 =>
            if ws2 b a then trimStart_rev t2
            else
              match t2 with
              | String c t3 => if ws3 c b a then trimStart_rev t3 else s
              | EmptyString => s
              end
        | EmptyString => s
        end
  end.

Definition trimEnd (s : string) : string :=
  string_rev (trimStart_rev (string_rev s)).

(** [String.prototype.trim]. *)
Definition trim (s : string) : string := trimEnd (trimStart s).

(** The characters of a string, each as the bytes that encode it. *)
Fixpoint code_points (s : string) : list string :=
  match s with
  | EmptyString => []
  | String a t =>
      let n := nat_of_ascii a in
      if (n <? 192)%nat then String a EmptyString :: code_points t
      else
        match t with
        | EmptyString => [String a EmptyString]
        | String b t2 =>
            if (n <? 224)%nat then String a (String b EmptyString) :: code_points t2
            else
              match t2 with
              | EmptyString => [String a (String b EmptyString)]
              | String c t3 =>
                  if (n <? 240)%nat
                  then String a (String b (String c EmptyString)) :: code_points t3
                  else
                    match t3 with
                    | EmptyString => [String a (String b (String c EmptyString))]
                    | String d t4 =>
                        String a (String b (String c (String d EmptyString)))
                          :: code_points t4
                    end
              end
        end
  end.

(** UTF-16 code units: a character of four bytes takes two units. *)
Definition code_units (s : string) : list string :=
  flat_map (fun ch => if (String.length ch =? 4)%nat then [ch; ch] else [ch])
           (code_points s).

(** ** Truthiness and conversions *)

Definition truthy (v : value) : bool :=
  match v with
  | VUndefined | VNull => false
  | VBool b => b
  | VNum n => negb (n =? 0)%Z
  | VStr s => negb (String.eqb s EmptyString)
  | VArr _ | VObj _ => true
  end.

(** [a || b]. *)
Definition or_else (a b : value) : value := if truthy a then a else b.

Definition nullish (v : value) : bool :=
  match v with
  | VUndefined | VNull => true
  | _ => false
  end.

Fixpoint lookup (k : string) (fields : list (string * value)) : option value :=
  match fields with
  | [] => None
  | (k', v) :: rest => if String.eqb k k' then Some v else lookup k rest
  end.

Definition has_own (k : string) (fields : list (string * value)) : bool :=
  match lookup k fields with
  | Some _ => true
  | None => false
  end.

Definition cannot_convert : error :=
  mkError TypeError "Cannot convert object to primitive value".

(** [ToString].  An array is joined with commas, [null] and [undefined]
    elements giving the empty string.  A plain object gives
    ["[object Object]"] through the inherited [toString], unless an own
    property of that name (data, hence not callable) hides it. *)
Fixpoint ToString (v : value) : outcome string :=
  match v with
  | VUndefined => Ok "undefined"
  | VNull => Ok "null"
  | VBool true => Ok "true"
  | VBool false => Ok "false"
  | VNum n => Ok (string_of_Z n)
  | VStr s => Ok s
  | VArr elems =>
      (fix join (l : list value) : outcome string :=
         match l with
         | [] => Ok EmptyString
         | e :: rest =>
             let! s := (if nullish e then Ok EmptyString else ToString e) in
             match rest with
             | [] => Ok s
             | _ :: _ => let! r := join rest in Ok (s ++ "," ++ r)
             end
         end) elems
  | VObj fields =>
      if has_own "toString" fields then Throw cannot_convert
      else Ok "[object Object]"
  end.

(** A number, or [None] for [NaN]. *)
Definition StringToNumber (s : string) : option Z :=
  match trim s with
  | EmptyString => Some 0%Z
  | String a t =>
      let digits (d : string) :=
        option_map Z.of_N (option_map N.of_uint (NilZero.uint_of_string d)) in
      if (nat_of_ascii a =? 43)%nat then digits t
      else if (nat_of_ascii a =? 45)%nat then option_map Z.opp (digits t)
      else digits (String a t)
  end.

Definition ToNumber (v : value) : outcome (option Z) :=
  match v with
  | VUndefined => Ok None
  | VNull => Ok (Some 0%Z)
  | VBool b => Ok (Some (if b then 1%Z else 0%Z))
  | VNum n => Ok (Some n)
  | VStr s => Ok (StringToNumber s)
  | VArr _ | VObj _ => let! s := ToString v in Ok (StringToNumber s)
  end.

(** [a > n] and [n < a] for a number [n]: false when [a] is [NaN]. *)
Definition greater_than (a : value) (n : Z) : outcome bool :=
  let! x := ToNumber a in
  Ok match x with
     | Some m => (n <? m)%Z
     | None => false
     end.

(** ** Property access *)

(** The property names the program reads with the dot notation.  None of
    them is a member of [Object.prototype]. *)
Inductive prop : Type :=
| p_conversationHistory
| p_currentPersonality
| p_candidates
| p_content
| p_parts
| p_text
| p_error
| p_message
| p_length.

Definition prop_name (p : prop) : string :=
  match p with
  | p_conversationHistory => "conversationHistory"
  | p_currentPersonality => "currentPersonality"
  | p_candidates => "candidates"
  | p_content => "content"
  | p_parts => "parts"
  | p_text => "text"
  | p_error => "error"
  | p_message => "message"
  | p_length => "length"
  end.

Definition cannot_read (v : value) (key : string) : error :=
  mkError TypeError
    ("Cannot read properties of "
       ++ (match v with VNull => "null" | _ => "undefined" end)
       ++ " (reading '" ++ key ++ "')").

Definition from_option (o : option value) : value :=
  match o with
  | Some v => v
  | None => VUndefined
  end.

(** [v.p] *)
Definition get_prop (v : value) (p : prop) : outcome value :=
  match v with
  | VUndefined | VNull => Throw (cannot_read v (prop_name p))
  | VBool _ | VNum _ => Ok VUndefined
  | VStr s =>
      match p with
      | p_length => Ok (VNum (Z.of_nat (List.length (code_units s))))
      | _ => Ok VUndefined
      end
  | VArr elems =>
      match p with
      | p_length => Ok (VNum (Z.of_nat (List.length elems)))
      | _ => Ok VUndefined
      end
  | VObj fields => Ok (from_option (lookup (prop_name p) fields))
  end.

(** [v[i]] for a number [i] that is a non-negative integer. *)
Definition get_index (v : value) (i : Z) : outcome value :=
  match v with
  | VUndefined | VNull => Throw (cannot_read v (string_of_Z i))
  | VBool _ | VNum _ => Ok VUndefined
  | VStr s =>
      Ok (if (i <? 0)%Z then VUndefined
          else match nth_error (code_units s) (Z.to_nat i) with
               | Some ch => VStr ch
               | None => VUndefined
               end)
  | VArr elems =>
      Ok (if (i <? 0)%Z then VUndefined
          else from_option (nth_error elems (Z.to_nat i)))
  | VObj fields => Ok (from_option (lookup (string_of_Z i) fields))
  end.

(** [v?.p] *)
Definition get_prop_opt (v : value) (p : prop) : outcome value :=
  if nullish v then Ok VUndefined else get_prop v p.

(** ** JSON *)

(** What survives [JSON.stringify]: a property whose value is
    [undefined] is left out, an [undefined] array element becomes
    [null]. *)
Fixpoint jsonify (v : value) : value :=
  match v with
  | VArr elems =>
      VArr (map (fun e => match e with
                          | VUndefined => VNull
                          | _ => jsonify e
                          end) elems)
  | VObj fields =>
      VObj ((fix keep (l : list (string * value)) : list (string * value) :=
               match l with
               | [] => []
               | (k, VUndefined) :: rest => keep rest
               | (k, x) :: rest => (k, jsonify x) :: keep rest
               end) fields)
  | _ => v
  end.

(** A text, as far as [JSON.parse] and a truth test can tell. *)
Inductive text : Type :=
| EmptyText
| InvalidJson (why : string)
| JsonText (v : value).

Definition text_truthy (t : text) : bool :=
  match t with
  | EmptyText => false
  | _ => true
  end.

Definition JSON_parse (t : text) : outcome value :=
  match t with
  | EmptyText => Throw (mkError SyntaxError "Unexpected end of JSON input")
  | InvalidJson why => Throw (mkError SyntaxError why)
  | JsonText v => Ok v
  end.

(** [JSON.stringify] of an object or an array. *)
Definition JSON_stringify (v : value) : text := JsonText (jsonify v).

(** [Array.prototype.slice] with a negative start [-k]. *)
Definition slice_last {A} (k : nat) (l : list A) : list A :=
  skipn (List.length l - k) l.

End JS.

Import JS.
Local Open Scope js_scope.

(* ================================================================== *)
(** * config.js: the configuration object *)
(* ================================================================== *)

Module CONFIG.

Definition GEMINI_API_URL : string :=
  "https://generativelanguage.googleapis.com/v1beta/models/gemini-2.5-flash:generateContent".

Record model_config : Type := {
  temperature : Q;
  maxOutputTokens : Z;
  topP : Q;
  topK : Z
}.

Definition MODEL_CONFIG : model_config :=
  {| temperature := 7 # 10; maxOutputTokens := 2048; topP := 8 # 10; topK := 40 |}.

Definition PERSONALITIES : list (string * value) :=
  [ ("default", VStr "Ты — профессиональный ассистент. Отвечай на русском языке точно, по делу, структурированно. Будь вежливым и помогающим. Используй формальный стиль общения.");
    ("poet", VStr "Ты — поэт. Отвечай на русском языке в стихотворной форме. Используй красивые метафоры, рифмы и художественные образы. Будь творческим и вдохновляющим.");
    ("teacher", VStr "Ты — учитель. Отвечай на русском языке просто и понятно, объясняй сложные вещи пошагово. Будь терпеливым, поддерживающим и методичным.");
    ("friend", VStr "Ты — близкий друг. Отвечай на русском языке неформально, дружелюбно, с юмором. Используй простую речь, поддерживай и проявляй заботу.");
    ("professional", VStr "Ты — бизнес-консультант. Отвечай на русском языке официально, делово, компетентно. Давай точную информацию, практические советы и экспертные оценки.") ].

Definition MAX_HISTORY_LENGTH : Z := 20.

End CONFIG.

(* ================================================================== *)
(** * The world: globals, storage, page and log *)
(* ================================================================== *)

(** The body of a request, before [JSON.stringify]. *)
Record request : Type := {
  contents : list value;
  generationConfig : CONFIG.model_config;
  safetySettings : list (string * string)
}.

(** Calls into the page, the console and the network. *)
Inductive event : Type :=
| WelcomeDisplay (shown : bool)
| SettingsModal (shown : bool)
| ApiKeyInputSet (key : string)
| MessageAdded (type content : string)
| ButtonsDeactivated
| ButtonActivated (selector : string)
| Notification (message type : string)
| ChatCleared
| ContextInfo (count : string) (percent : option Z)
| InputDisabled (disabled : bool)
| ConsoleError (label : string) (e : error)
| Fetch (url : string) (body : request).

Record world : Type := {
  conversationHistory : value;
  currentPersonality : value;
  isLoading : bool;
  (** [localStorage], item [gemini_api_key] *)
  gemini_api_key : option string;
  (** [localStorage], item [gemini_chat_data] *)
  gemini_chat_data : option text;
  (** [value] of the element [message-input] *)
  message_input : string;
  log : list event
}.

(** The globals as the script initialises them, over a given storage. *)
Definition initial (key : option string) (data : option text) : world :=
  {| conversationHistory := VArr [];
     currentPersonality := VStr "default";
     isLoading := false;
     gemini_api_key := key;
     gemini_chat_data := data;
     message_input := EmptyString;
     log := [] |}.

Definition M (A : Type) : Type := world -> outcome A * world.

Definition ret {A} (a : A) : M A := fun w => (Ok a, w).

Definition bind {A B} (m : M A) (f : A -> M B) : M B :=
  fun w =>
    match m w with
    | (Ok a, w') => f a w'
    | (Throw e, w') => (Throw e, w')
    end.

Definition lift {A} (o : outcome A) : M A := fun w => (o, w).

Definition get : M world := fun w => (Ok w, w).

(** [try { body } catch (error) { handler }]: what [body] did to the world
    before it threw stays done. *)
Definition try_catch (body : M unit) (handler : error -> M unit) : M unit :=
  fun w =>
    match body w with
    | (Ok tt, w') => (Ok tt, w')
    | (Throw e, w') => handler e w'
    end.

(** How [m] ends, handed to the code that follows instead of being
    propagated. *)
Definition settled {A} (m : M A) : M (outcome A) :=
  fun w => let (o, w') := m w in (Ok o, w').

Declare Scope m_scope.
Delimit Scope m_scope with m.
Notation "x <- m ;; k" := (bind m (fun x => k))
  (at level 61, m at next level, right associativity) : m_scope.
Notation "m ;; k" := (bind m (fun _ => k))
  (at level 61, right associativity) : m_scope.
Local Open Scope m_scope.

(** Assignments to one field of the world. *)

Definition with_conversationHistory (h : value) (w : world) : world :=
  {| conversationHistory := h;
     currentPersonality := currentPersonality w;
     isLoading := isLoading w;
     gemini_api_key := gemini_api_key w;
     gemini_chat_data := gemini_chat_data w;
     message_input := message_input w;
     log := log w |}.

Definition with_currentPersonality (p : value) (w : world) : world :=
  {| conversationHistory := conversationHistory w;
     currentPersonality := p;
     isLoading := isLoading w;
     gemini_api_key := gemini_api_key w;
     gemini_chat_data := gemini_chat_data w;
     message_input := message_input w;
     log := log w |}.

Definition with_isLoading (b : bool) (w : world) : world :=
  {| conversationHistory := conversationHistory w;
     currentPersonality := currentPersonality w;
     isLoading := b;
     gemini_api_key := gemini_api_key w;
     gemini_chat_data := gemini_chat_data w;
     message_input := message_input w;
     log := log w |}.

Definition with_gemini_api_key (k : option string) (w : world) : world :=
  {| conversationHistory := conversationHistory w;
     currentPersonality := currentPersonality w;
     isLoading := isLoading w;
     gemini_api_key := k;
     gemini_chat_data := gemini_chat_data w;
     message_input := message_input w;
     log := log w |}.

Definition with_gemini_chat_data (d : option text) (w : world) : world :=
  {| conversationHistory := conversationHistory w;
     currentPersonality := currentPersonality w;
     isLoading := isLoading w;
     gemini_api_key := gemini_api_key w;
     gemini_chat_data := d;
     message_input := message_input w;
     log := log w |}.

Definition with_message_input (s : string) (w : world) : world :=
  {| conversationHistory := conversationHistory w;
     currentPersonality := currentPersonality w;
     isLoading := isLoading w;
     gemini_api_key := gemini_api_key w;
     gemini_chat_data := gemini_chat_data w;
     message_input := s;
     log := log w |}.

Definition with_event (e : event) (w : world) : world :=
  {| conversationHistory := conversationHistory w;
     currentPersonality := currentPersonality w;
     isLoading := isLoading w;
     gemini_api_key := gemini_api_key w;
     gemini_chat_data := gemini_chat_data w;
     message_input := message_input w;
     log := (log w ++ [e])%list |}.

Definition emit (e : event) : M unit :=
  fun w => (Ok tt, with_event e w).

Definition set_conversationHistory (h : value) : M unit :=
  fun w => (Ok tt, with_conversationHistory h w).

Definition set_currentPersonality (p : value) : M unit :=
  fun w => (Ok tt, with_currentPersonality p w).

Definition set_isLoading (b : bool) : M unit :=
  fun w => (Ok tt, with_isLoading b w).

Definition set_gemini_api_key (k : option string) : M unit :=
  fun w => (Ok tt, with_gemini_api_key k w).

Definition set_gemini_chat_data (d : option text) : M unit :=
  fun w => (Ok tt, with_gemini_chat_data d w).

Definition set_message_input (s : string) : M unit :=
  fun w => (Ok tt, with_message_input s w).

(* ================================================================== *)
(** * config.js: the API key *)
(* ================================================================== *)

(** [localStorage.getItem('gemini_api_key') || ''] *)
Definition getApiKey : M string :=
  w <- get ;;
  ret match gemini_api_key w with
      | Some k => k
      | None => EmptyString
      end.

Definition setApiKey (apiKey : string) : M unit :=
  set_gemini_api_key (Some apiKey).

(** [key && key.length > 0], as its callers test it. *)
Definition hasApiKey : M bool :=
  key <- getApiKey ;;
  ret (negb (String.eqb key EmptyString) && (0 <? String.length key)%nat).

Definition removeApiKey : M unit := set_gemini_api_key None.

(* ================================================================== *)
(** * script.js *)
(* ================================================================== *)

(** ** The page *)

Definition showWelcomeMessage : M unit := emit (WelcomeDisplay true).

Definition hideWelcomeMessage : M unit := emit (WelcomeDisplay false).

Definition showSettings : M unit :=
  emit (SettingsModal true) ;;
  key <- getApiKey ;;
  emit (ApiKeyInputSet key).

Definition hideSettings : M unit := emit (SettingsModal false).

Definition showApiKeyDialog : M unit := showSettings.

(** Assignment to [textContent]: [null] and [undefined] give the empty
    text, anything else is converted with [ToString]. *)
Definition dom_text (v : value) : outcome string :=
  if nullish v then Ok EmptyString else ToString v.

(** One bubble appended to the chat. *)
Definition addMessage (type : string) (content : value) : M unit :=
  s <- lift (dom_text content) ;;
  emit (MessageAdded type s).

Definition showNotification (message type : string) : M unit :=
  emit (Notification message type).

(** [Math.round(Math.min(100, (n / MAX_HISTORY_LENGTH) * 100))], [None]
    for [NaN]: the number in the label [context-percentage].  For the
    lengths an array or a string can have, the quotient times 100 is
    within rounding of [5 * n], so the rounded value is the one computed
    here on integers.  The width
    of the progress bar, set from the same value before rounding (a
    double such as 55.00000000000001 for 11 entries), is not logged. *)
Definition percentage (n : option Z) : option Z :=
  option_map (fun m => Z.min 100 (m * 100 / CONFIG.MAX_HISTORY_LENGTH)) n.

Definition updateContextInfo : M unit :=
  w <- get ;;
  len <- lift (get_prop (conversationHistory w) p_length) ;;
  shown <- lift (dom_text len) ;;
  n <- lift (ToNumber len) ;;
  emit (ContextInfo shown (percentage n)).

Definition enableInput : M unit :=
  emit (InputDisabled false) ;;
  set_isLoading false.

Definition disableInput : M unit :=
  emit (InputDisabled true) ;;
  set_isLoading true.

(** ** Persistence *)

Definition saveData : M unit :=
  w <- get ;;
  let data := VObj [ ("conversationHistory", conversationHistory w);
                     ("currentPersonality", currentPersonality w) ] in
  set_gemini_chat_data (Some (JSON_stringify data)).

(** ** Personas *)

Definition names : list (string * value) :=
  [ ("default", VStr "Стандартный");
    ("poet", VStr "Поэт");
    ("teacher", VStr "Учитель");
    ("friend", VStr "Друг");
    ("professional", VStr "Профессионал") ].

Definition getPersonalityName (personality : value) : outcome value :=
  let! key := ToString personality in
  Ok (or_else (from_option (lookup key names)) (VStr "Стандартный")).

(** [`[data-personality="${personality}"]`] *)
Definition selector (id : string) : string :=
  "[data-personality=" ++ dquote ++ id ++ dquote ++ "]".

(** The characters that a CSS string in double quotes cannot hold as
    they are: the double quote, the backslash, and the line breaks (line
    feed, form feed, carriage return). *)
Definition breaks_css_string (a : ascii) : bool :=
  let n := nat_of_ascii a in
  ((n =? 34) || (n =? 92) || (n =? 10) || (n =? 12) || (n =? 13))%nat.

(** An id that can be put between the quotes of [selector] as it is. *)
Definition plain_id (id : string) : bool :=
  negb (existsb breaks_css_string (list_ascii_of_string id)).

Definition invalid_selector (sel : string) : error :=
  mkError DOMSyntaxError
    ("Failed to execute 'querySelector' on 'Document': '" ++ sel
       ++ "' is not a valid selector.").

(** [document.querySelector] on the selector built from [id]: the
    selector, whose element the caller marks if the page has one, or the
    exception raised for a selector that does not parse.  The id is put
    into the selector unescaped.  With a plain id the selector is an
    attribute selector with a string value, which parses.  Any other id
    is refused here, as the parser refuses the selector built from an
    id with a double quote between two letters; see the limits of the
    fragment. *)
Definition querySelector (id : string) : outcome string :=
  if plain_id id then Ok (selector id)
  else Throw (invalid_selector (selector id)).

Definition changePersonality (personality : value) : M unit :=
  emit ButtonsDeactivated ;;
  id <- lift (ToString personality) ;;
  (* the button matching the selector, when the page has one *)
  selectedBtn <- lift (querySelector id) ;;
  emit (ButtonActivated selectedBtn) ;;
  set_currentPersonality personality ;;
  saveData ;;
  shown <- lift (let! n := getPersonalityName personality in ToString n) ;;
  showNotification ("Стиль изменен на: " ++ shown) "success".

Definition clearContext : M unit :=
  set_conversationHistory (VArr []) ;;
  emit ChatCleared ;;
  showWelcomeMessage ;;
  updateContextInfo ;;
  saveData ;;
  showNotification "Контекст очищен" "success".

(** ** Request assembly *)

(** [{ role: role, parts: [{ text: text }] }] *)
Definition turn (role : string) (text : value) : value :=
  VObj [ ("role", VStr role); ("parts", VArr [VObj [("text", text)]]) ].

Definition acknowledgment : string := "Понял! Буду следовать этому стилю.".

(** [...v] in an argument list. *)
Definition spread (v : value) : outcome (list value) :=
  match v with
  | VArr elems => Ok elems
  | VStr s => Ok (map VStr (code_points s))
  | _ =>
      Throw (mkError TypeError
        "Spread syntax requires ...iterable[Symbol.iterator] to be a function")
  end.

(** Lines 88 to 108 of [callGeminiAPI]: the array [contents]. *)
Definition build_contents (personality history : value) (message : string)
  : outcome (list value) :=
  let! key := ToString personality in
  let systemPrompt := from_option (lookup key CONFIG.PERSONALITIES) in
  let! past := spread history in
  Ok ([ turn "user" systemPrompt; turn "model" (VStr acknowledgment) ]
        ++ past ++ [ turn "user" (VStr message) ])%list.

Definition block_medium (category : string) : string * string :=
  (category, "BLOCK_MEDIUM_AND_ABOVE").

Definition requestData (contents : list value) : request :=
  {| contents := contents;
     generationConfig := CONFIG.MODEL_CONFIG;
     safetySettings :=
       [ block_medium "HARM_CATEGORY_HARASSMENT";
         block_medium "HARM_CATEGORY_HATE_SPEECH";
         block_medium "HARM_CATEGORY_SEXUALLY_EXPLICIT";
         block_medium "HARM_CATEGORY_DANGEROUS_CONTENT" ] |}.

(** ** The remote call *)

(** What [fetch] comes back with: a rejection, or a response with its
    [ok] flag and the text of its body. *)
Inductive fetch_result : Type :=
| Rejected (e : error)
| Responded (ok : bool) (body : text).

(** [callGeminiAPI] up to the [await fetch(...)]. *)
Definition callGeminiAPI_request (message : string) : M unit :=
  apiKey <- getApiKey ;;
  let url := CONFIG.GEMINI_API_URL ++ "?key=" ++ apiKey in
  w <- get ;;
  contents <- lift (build_contents (currentPersonality w)
                                   (conversationHistory w) message) ;;
  emit (Fetch url (requestData contents)).

(** [callGeminiAPI] from the point where [fetch] has settled. *)
Definition callGeminiAPI_response (r : fetch_result) : outcome value :=
  match r with
  | Rejected e => Throw e
  | Responded false body =>
      let! errorData := JSON_parse body in
      let! err := get_prop errorData p_error in
      let! msg := get_prop_opt err p_message in
      let! text := ToString (or_else msg (VStr "Ошибка API")) in
      Throw (mkError PlainError text)
  | Responded true body =>
      let! data := JSON_parse body in
      let! candidates := get_prop data p_candidates in
      let! candidate := get_index candidates 0 in
      let! content := get_prop candidate p_content in
      let! parts := get_prop content p_parts in
      let! part := get_index parts 0 in
      get_prop part p_text
  end.

(** ** Sending a message *)

Definition not_a_function (what : string) : error :=
  mkError TypeError (what ++ " is not a function").

(** Lines 62 to 68: two [push] and the cut to the last
    [MAX_HISTORY_LENGTH] entries.  [push] exists on arrays only. *)
Definition record_exchange (message : string) (response : value) : M unit :=
  w <- get ;;
  match conversationHistory w with
  | VArr elems =>
      let pushed :=
        (elems ++ [ turn "user" (VStr message); turn "model" response ])%list in
      set_conversationHistory
        (VArr (if (CONFIG.MAX_HISTORY_LENGTH <? Z.of_nat (List.length pushed))%Z
               then slice_last (Z.to_nat CONFIG.MAX_HISTORY_LENGTH) pushed
               else pushed))
  | VUndefined | VNull =>
      lift (Throw (cannot_read (conversationHistory w) "push"))
  | _ => lift (Throw (not_a_function "conversationHistory.push"))
  end.

(** The [catch] block of [sendMessage]. *)
Definition sendMessage_catch (e : error) : M unit :=
  emit (ConsoleError "Ошибка:" e) ;;
  addMessage "bot" (VStr ("Ошибка: " ++ message e)).

(** The two statements after the [try]. *)
Definition sendMessage_finally : M unit :=
  set_message_input EmptyString ;;
  enableInput.

(** [sendMessage] up to its [await]: [Some message] when a request went
    out and the function is suspended, [None] when it has returned. *)
Definition sendMessage_begin : M (option string) :=
  w <- get ;;
  let message := trim (message_input w) in
  if String.eqb message EmptyString || isLoading w then ret None
  else
    has <- hasApiKey ;;
    if negb has then showApiKeyDialog ;; ret None
    else
      disableInput ;;
      addMessage "user" (VStr message) ;;
      sent <- settled (callGeminiAPI_request message) ;;
      match sent with
      | Ok _ => ret (Some message)
      | Throw e => sendMessage_catch e ;; sendMessage_finally ;; ret None
      end.

(** [sendMessage] from the point where [fetch] has settled. *)
Definition sendMessage_resume (message : string) (r : fetch_result) : M unit :=
  try_catch
    (response <- lift (callGeminiAPI_response r) ;;
     addMessage "bot" response ;;
     record_exchange message response ;;
     updateContextInfo ;;
     saveData)
    sendMessage_catch ;;
  sendMessage_finally.

(** A whole call of [sendMessage], [r] being what the network answers if
    it is asked. *)
Definition sendMessage (r : fetch_result) : M unit :=
  pending <- sendMessage_begin ;;
  match pending with
  | Some message => sendMessage_resume message r
  | None => ret tt
  end.

(** ** Restoring the saved state *)

(** The body of the [for] loop of [loadSavedData]. *)
Definition replay_pair (i : Z) : M unit :=
  w <- get ;;
  let history := conversationHistory w in
  first <- lift (get_index history i) ;;
  both <- (if truthy first then lift (get_index history (i + 1)) else ret first) ;;
  if truthy both then
    u <- lift (let! e := get_index history i in
               let! parts := get_prop e p_parts in
               let! part := get_index parts 0 in
               get_prop part p_text) ;;
    addMessage "user" u ;;
    b <- lift (let! e := get_index history (i + 1) in
               let! parts := get_prop e p_parts in
               let! part := get_index parts 0 in
               get_prop part p_text) ;;
    addMessage "bot" b
  else ret tt.

(** [for (let i = ...; i < conversationHistory.length; i += 2)], from [i]
    on; every turn of the loop uses one unit of [fuel]. *)
Fixpoint replay (fuel : nat) (i : Z) : M unit :=
  match fuel with
  | O => ret tt
  | S fuel' =>
      w <- get ;;
      len <- lift (get_prop (conversationHistory w) p_length) ;;
      more <- lift (greater_than len i) ;;
      if more then replay_pair i ;; replay fuel' (i + 2) else ret tt
  end.

(** More tests than the loop can make on a history of this [length]. *)
Definition replay_fuel (len : value) : nat :=
  match ToNumber len with
  | Ok (Some n) => S (Z.to_nat n)
  | _ => 1
  end.

Definition loadSavedData : M unit :=
  w <- get ;;
  match gemini_chat_data w with
  | None => ret tt
  | Some savedData =>
      if text_truthy savedData then
        try_catch
          (data <- lift (JSON_parse savedData) ;;
           h <- lift (get_prop data p_conversationHistory) ;;
           set_conversationHistory (or_else h (VArr [])) ;;
           p <- lift (get_prop data p_currentPersonality) ;;
           set_currentPersonality (or_else p (VStr "default")) ;;
           w1 <- get ;;
           changePersonality (currentPersonality w1) ;;
           w2 <- get ;;
           len <- lift (get_prop (conversationHistory w2) p_length) ;;
           some <- lift (greater_than len 0) ;;
           if some then
             hideWelcomeMessage ;;
             replay (replay_fuel len) 0
           else ret tt)
          (fun e => emit (ConsoleError "Ошибка загрузки данных:" e))
      else ret tt
  end.

(** ** Start-up and the settings dialog *)

Definition onload : M unit :=
  has <- hasApiKey ;;
  (if negb has then showWelcomeMessage
   else hideWelcomeMessage ;; enableInput) ;;
  loadSavedData ;;
  updateContextInfo.

(** [apiKeyInput] is the text typed into the dialog. *)
Definition saveApiKey (apiKeyInput : string) : M unit :=
  let apiKey := trim apiKeyInput in
  if negb (String.eqb apiKey EmptyString) then
    setApiKey apiKey ;;
    hideSettings ;;
    hideWelcomeMessage ;;
    enableInput ;;
    showNotification "API ключ сохранен" "success"
  else showNotification "Введите API ключ" "error".

(** ** The keyboard *)

(** What [handleKeyPress] reads of the keyboard event: the key, the
    Shift state, and [scrollHeight] of the text area the event is aimed
    at. *)
Record key_event : Type := { key : string; shiftKey : bool; scrollHeight : Z }.

(** What [handleKeyPress] does to the event and to the text area:
    whether [preventDefault] was called, and the final [style.height]. *)
Record key_effects : Type := { defaultPrevented : bool; height : string }.

(** [sendMessage()] is called and its promise dropped, so the handler
    goes on whatever the call does; the part of [sendMessage] up to the
    request is run here, and the message of the pending request, if any,
    is returned beside the effects.  When the request cannot be built,
    the [catch] block and the closing statements of [sendMessage] run
    once the handler has returned; they are run with [sendMessage_begin]
    here, the lines that follow in the handler touching the style of the
    text area only. *)
Definition handleKeyPress (ev : key_event) : M (key_effects * option string) :=
  pending <-
    (if String.eqb (key ev) "Enter" && negb (shiftKey ev)
     then sent <- settled sendMessage_begin ;;
          ret (match sent with Ok p => p | Throw _ => None end)
     else ret None) ;;
  ret ({| defaultPrevented := String.eqb (key ev) "Enter" && negb (shiftKey ev);
          height := string_of_Z (Z.min (scrollHeight ev) 128) ++ "px" |},
       pending).

(* ================================================================== *)
(** * Vocabulary of the specification *)
(* ================================================================== *)

(** ** Personas *)

Definition known_ids : list string := map fst CONFIG.PERSONALITIES.

Definition known_persona (v : value) : bool :=
  match v with
  | VStr id => existsb (String.eqb id) known_ids
  | _ => false
  end.

(** The preamble of a persona: its entry in [CONFIG.PERSONALITIES]. *)
Definition preamble (id : string) : value :=
  from_option (lookup id CONFIG.PERSONALITIES).

(** ** Invariants: what holds of the world however a computation ends *)

Definition stable {A} (I : world -> Prop) (m : M A) : Prop :=
  forall w, I w -> I (snd (m w)).

(** The two globals that are persisted. *)
Definition keeps (h p : value) (w : world) : Prop :=
  conversationHistory w = h /\ currentPersonality w = p.

(** ** Stored snapshots *)

(** Nothing can be read from the stored item: there is none, or its text
    is empty, is not JSON, or is the JSON [null]. *)
Definition unreadable (t : option text) : Prop :=
  match t with
  | None | Some EmptyText | Some (InvalidJson _) => True
  | Some (JsonText v) => nullish v = true
  end.

(** The stored item gives neither a history nor a persona: it is
    unreadable, or not an object, or an object in which both properties
    are missing or falsy. *)
Definition carries_nothing (t : option text) : Prop :=
  match t with
  | None | Some EmptyText | Some (InvalidJson _) => True
  | Some (JsonText (VObj fields)) =>
      truthy (from_option (lookup "conversationHistory" fields)) = false
      /\ truthy (from_option (lookup "currentPersonality" fields)) = false
  | Some (JsonText _) => True
  end.

(** ** Turns *)

Record Turn : Type := { turn_role : string; turn_text : string }.

(** A turn as a value: an object with the role, and with the text as
    the [text] of the only element of [parts]. *)
Definition turn_value (t : Turn) : value :=
  VObj [ ("role", VStr (turn_role t));
         ("parts", VArr [ VObj [ ("text", VStr (turn_text t)) ] ]) ].

(** What the replay of a stored history shows: the turns two by two, a
    last turn without partner left out. *)
Fixpoint rendering (ts : list Turn) : list event :=
  match ts with
  | a :: b :: rest =>
      MessageAdded "user" (turn_text a) :: MessageAdded "bot" (turn_text b)
        :: rendering rest
  | _ => []
  end.

Definition with_events (es : list event) (w : world) : world :=
  fold_left (fun w e => with_event e w) es w.

(** [fuel] tests are enough for the replay loop from index [i] on, over
    the history [h]. *)
Definition fuel_covers (fuel : nat) (i : Z) (h : value) : Prop :=
  (1 <= fuel)%nat
  /\ forall len n,
       get_prop h p_length = Ok len ->
       ToNumber len = Ok (Some n) ->
       (n - i <= 2 * (Z.of_nat fuel - 1))%Z.

Definition is_message (e : event) : bool :=
  match e with
  | MessageAdded _ _ => true
  | _ => false
  end.

Definition messages (l : list event) : list event := filter is_message l.


(** ** Requests and responses *)

Definition request_url (w : world) : string :=
  CONFIG.GEMINI_API_URL ++ "?key="
    ++ match gemini_api_key w with Some k => k | None => EmptyString end.

(** The message list for persona [id], history [h] and message [m]. *)
Definition assembled (id : string) (h : list value) (m : string) : list value :=
  ([ turn "user" (preamble id); turn "model" (VStr acknowledgment) ]
     ++ h ++ [ turn "user" (VStr m) ])%list.

Definition is_fetch (e : event) : bool :=
  match e with
  | Fetch _ _ => true
  | _ => false
  end.

Definition fetches (l : list event) : list event := filter is_fetch l.

Definition credential_absent (w : world) : Prop :=
  gemini_api_key w = None \/ gemini_api_key w = Some EmptyString.

Definition fallback_message : string := "Ошибка API".

(** A value that is there: neither thrown, nor [null], nor [undefined]. *)
Definition present (o : outcome value) : option value :=
  match o with
  | Ok v => if nullish v then None else Some v
  | Throw _ => None
  end.

(** [candidates[0].content.parts[0]] of a response body, when every link
    up to it is there. *)
Definition first_part (body : text) : option value :=
  match present (JSON_parse body) with
  | None => None
  | Some data =>
  match present (get_prop data p_candidates) with
  | None => None
  | Some candidates =>
  match present (get_index candidates 0) with
  | None => None
  | Some candidate =>
  match present (get_prop candidate p_content) with
  | None => None
  | Some content =>
  match present (get_prop content p_parts) with
  | None => None
  | Some parts => present (get_index parts 0)
  end end end end end.

(** ** Conversations *)

(** One exchange: what the user types, and what the network answers. *)
Record exchange : Type := { typed : string; answer : fetch_result }.

Definition reply_of (r : fetch_result) : value :=
  match callGeminiAPI_response r with
  | Ok v => v
  | Throw _ => VUndefined
  end.

(** The two turns a successful exchange appends. *)
Definition appended (x : exchange) : list value :=
  [ turn "user" (VStr (trim (typed x))); turn "model" (reply_of (answer x)) ].

Definition successful (x : exchange) : Prop :=
  trim (typed x) <> EmptyString
  /\ exists reply, callGeminiAPI_response (answer x) = Ok (VStr reply).

Definition exchange_once (x : exchange) : M unit :=
  set_message_input (typed x) ;;
  sendMessage (answer x).

Fixpoint converse (xs : list exchange) : M unit :=
  match xs with
  | [] => ret tt
  | x :: rest => exchange_once x ;; converse rest
  end.

(** A world in which a message can be sent. *)
Definition ready (id key : string) (h : list value) (w : world) : Prop :=
  conversationHistory w = VArr h
  /\ currentPersonality w = VStr id
  /\ isLoading w = false
  /\ gemini_api_key w = Some key.

Definition capped (l : list value) : list value :=
  slice_last (Z.to_nat CONFIG.MAX_HISTORY_LENGTH) l.

(** ** Sample inputs *)

Definition poet_snapshot : value :=
  VObj [ ("currentPersonality", VStr "poet") ].

Definition success_body (reply : string) : text :=
  JsonText
    (VObj [ ("candidates",
             VArr [ VObj [ ("content",
                            VObj [ ("parts",
                                    VArr [ VObj [ ("text", VStr reply) ] ]) ]) ] ]) ]).

Definition hello : exchange :=
  {| typed := " Hello "; answer := Responded true (success_body "Hi there") |}.

Definition eleven_exchanges : list exchange := repeat hello 11.

Definition with_key : world := initial (Some "secret") None.

Definition no_key_typed : world := with_message_input "hi" (initial None None).

Definition quota_body : text :=
  JsonText (VObj [ ("error", VObj [ ("message", VStr "quota exceeded") ]) ]).

Definition three_turns : list Turn :=
  [ {| turn_role := "user"; turn_text := "one" |};
    {| turn_role := "model"; turn_text := "two" |};
    {| turn_role := "user"; turn_text := "three" |} ].

Definition three_turn_snapshot : value :=
  VObj [ ("conversationHistory", VArr (map turn_value three_turns));
         ("currentPersonality", VStr "teacher") ].

Definition three_turns_in_memory : world :=
  with_currentPersonality (VStr "teacher")
    (with_conversationHistory (VArr (map turn_value three_turns)) with_key).



(* ================================================================== *)
(** * Vocabulary of the further properties *)
(* ================================================================== *)

(** ** Stored items and shown events *)

(** The stored item for a history and a persona. *)
Definition stored (h p : value) : option text :=
  Some (JSON_stringify (VObj [ ("conversationHistory", h);
                               ("currentPersonality", p) ])).

(** What [updateContextInfo] shows for an array of [n] entries. *)
Definition gauge (n : nat) : event :=
  ContextInfo (string_of_Z (Z.of_nat n)) (percentage (Some (Z.of_nat n))).

(** The two turns of an exchange. *)
Definition exchanged (sent reply : string) : list Turn :=
  [ {| turn_role := "user"; turn_text := sent |};
    {| turn_role := "model"; turn_text := reply |} ].

(** ** Worlds after an operation *)

(** The world after the [catch] block and the two closing statements of
    [sendMessage]. *)
Definition after_failure (e : error) (w : world) : world :=
  with_isLoading false
    (with_event (InputDisabled false)
       (with_message_input EmptyString
          (with_event (MessageAdded "bot" ("Ошибка: " ++ message e))
             (with_event (ConsoleError "Ошибка:" e) w)))).

(** The world after the two closing statements of [sendMessage]. *)
Definition after_finally (w : world) : world :=
  with_isLoading false
    (with_event (InputDisabled false) (with_message_input EmptyString w)).

(** The world in which a request is pending. *)
Definition pending_world (id : string) (h : list value) (w : world) : world :=
  with_event (Fetch (request_url w)
                    (requestData (assembled id h (trim (message_input w)))))
    (with_event (MessageAdded "user" (trim (message_input w)))
       (with_isLoading true (with_event (InputDisabled true) w))).

(** The world after [clearContext]. *)
Definition after_clearContext (w : world) : world :=
  with_event (Notification "Контекст очищен" "success")
    (with_gemini_chat_data (stored (VArr []) (currentPersonality w))
       (with_event (gauge 0)
          (with_event (WelcomeDisplay true)
             (with_event ChatCleared (with_conversationHistory (VArr []) w))))).

(** The world after [saveApiKey] has stored the key [apiKey]. *)
Definition after_saveApiKey (apiKey : string) (w : world) : world :=
  with_event (Notification "API ключ сохранен" "success")
    (with_isLoading false
       (with_event (InputDisabled false)
          (with_event (WelcomeDisplay false)
             (with_event (SettingsModal false)
                (with_gemini_api_key (Some apiKey) w))))).

(** The world after [changePersonality] with the string [id], [shown]
    being the name put in the notification. *)
Definition after_changePersonality (id shown : string) (w : world) : world :=
  with_event (Notification ("Стиль изменен на: " ++ shown) "success")
    (with_gemini_chat_data (stored (conversationHistory w) (VStr id))
       (with_currentPersonality (VStr id)
          (with_event (ButtonActivated (selector id))
             (with_event ButtonsDeactivated w)))).

(** The world after [loadSavedData] has restored the turns [ts] and the
    persona [id]. *)
Definition restored (id shown : string) (ts : list Turn) (w : world) : world :=
  let w3 :=
    after_changePersonality id shown
      (with_currentPersonality (VStr id)
         (with_conversationHistory (VArr (map turn_value ts)) w)) in
  match ts with
  | [] => w3
  | _ :: _ => with_events (rendering ts) (with_event (WelcomeDisplay false) w3)
  end.

(** The world after the first statement of [onload]. *)
Definition welcomed (w : world) : world :=
  match gemini_api_key w with
  | None | Some EmptyString => with_event (WelcomeDisplay true) w
  | Some _ =>
      with_isLoading false
        (with_event (InputDisabled false) (with_event (WelcomeDisplay false) w))
  end.

(** ** Properties that an operation cannot disturb *)

(** A property of the world that does not depend on the history, the
    persona, the stored chat data, or the events other than [Fetch]. *)
Definition untouched (I : world -> Prop) : Prop :=
  (forall h w, I w -> I (with_conversationHistory h w))
  /\ (forall p w, I w -> I (with_currentPersonality p w))
  /\ (forall d w, I w -> I (with_gemini_chat_data d w))
  /\ (forall e w, is_fetch e = false -> I w -> I (with_event e w)).

(** The four operations that work on history and persona. *)
Inductive upkeep : Type :=
| Load
| ChangePersonality (personality : value)
| ClearContext
| UpdateContextInfo.

Definition run_upkeep (o : upkeep) : M unit :=
  match o with
  | Load => loadSavedData
  | ChangePersonality p => changePersonality p
  | ClearContext => clearContext
  | UpdateContextInfo => updateContextInfo
  end.

(** ** Property names outside the fragment *)

(** The names every object inherits from [Object.prototype]: indexing
    [names] or [CONFIG.PERSONALITIES] with one of them finds the
    inherited member. *)
Definition inherited_names : list string :=
  [ "constructor"; "__proto__"; "hasOwnProperty"; "isPrototypeOf";
    "propertyIsEnumerable"; "toLocaleString"; "toString"; "valueOf";
    "__defineGetter__"; "__defineSetter__"; "__lookupGetter__";
    "__lookupSetter__" ].

(** ** Exchanges that fail *)

(** The exchange was answered with a text. *)
Definition succeeded (x : exchange) : bool :=
  match callGeminiAPI_response (answer x) with
  | Ok (VStr _) => true
  | _ => false
  end.

(** The message is not blank, and the call gives a text or fails. *)
Definition answered_or_failed (x : exchange) : Prop :=
  trim (typed x) <> EmptyString
  /\ ((exists reply, callGeminiAPI_response (answer x) = Ok (VStr reply))
      \/ (exists e, callGeminiAPI_response (answer x) = Throw e)).

(** ** Further sample inputs *)

Definition offline : error := mkError TypeError "Failed to fetch".

Definition not_iterable : error :=
  mkError TypeError
    "Spread syntax requires ...iterable[Symbol.iterator] to be a function".

Definition hello_typed : world := with_message_input "Hello" with_key.

Definition number_history : world :=
  with_message_input "Hello" (with_conversationHistory (VNum 7) with_key).

Definition thirty_turns : list Turn :=
  repeat {| turn_role := "user"; turn_text := "again" |} 30.

Definition thirty_turn_snapshot : value :=
  VObj [ ("conversationHistory", VArr (map turn_value thirty_turns)) ].

Definition failing : exchange :=
  {| typed := "Hello"; answer := Responded false quota_body |}.

Definition plain_enter : key_event :=
  {| key := "Enter"; shiftKey := false; scrollHeight := 300 |}.

(* ================================================================== *)
(** * Reasoning about computations *)
(* ================================================================== *)

(** ** Stepping through a computation *)

Lemma bind_ok {A B} (m : M A) (k : A -> M B) w a w' :
  m w = (Ok a, w') -> bind m k w = k a w'.
Proof. intro H. unfold bind. rewrite H. reflexivity. Qed.

Lemma bind_throw {A B} (m : M A) (k : A -> M B) w e w' :
  m w = (Throw e, w') -> bind m k w = (Throw e, w').
Proof. intro H. unfold bind. rewrite H. reflexivity. Qed.

Lemma bind_get {B} (k : world -> M B) w : bind get k w = k w w.
Proof. reflexivity. Qed.

Lemma bind_lift_ok {A B} (a : A) (k : A -> M B) w : bind (lift (Ok a)) k w = k a w.
Proof. reflexivity. Qed.

Lemma bind_ret {A B} (a : A) (k : A -> M B) w : bind (ret a) k w = k a w.
Proof. reflexivity. Qed.

Lemma bind_emit {B} e (k : unit -> M B) w : bind (emit e) k w = k tt (with_event e w).
Proof. reflexivity. Qed.

Lemma bind_set_conversationHistory {B} h (k : unit -> M B) w :
  bind (set_conversationHistory h) k w = k tt (with_conversationHistory h w).
Proof. reflexivity. Qed.

Lemma bind_set_currentPersonality {B} p (k : unit -> M B) w :
  bind (set_currentPersonality p) k w = k tt (with_currentPersonality p w).
Proof. reflexivity. Qed.

Lemma bind_set_isLoading {B} b (k : unit -> M B) w :
  bind (set_isLoading b) k w = k tt (with_isLoading b w).
Proof. reflexivity. Qed.

Lemma bind_set_gemini_api_key {B} x (k : unit -> M B) w :
  bind (set_gemini_api_key x) k w = k tt (with_gemini_api_key x w).
Proof. reflexivity. Qed.

Lemma bind_set_gemini_chat_data {B} d (k : unit -> M B) w :
  bind (set_gemini_chat_data d) k w = k tt (with_gemini_chat_data d w).
Proof. reflexivity. Qed.

Lemma bind_set_message_input {B} x (k : unit -> M B) w :
  bind (set_message_input x) k w = k tt (with_message_input x w).
Proof. reflexivity. Qed.

Lemma bind_settled {A B} (m : M A) (k : outcome A -> M B) w o w' :
  m w = (o, w') -> bind (settled m) k w = k o w'.
Proof. intro H. unfold bind, settled. rewrite H. reflexivity. Qed.

Lemma bind_assoc {A B C} (m : M A) (k : A -> M B) (h : B -> M C) w :
  bind (bind m k) h w = bind m (fun a => bind (k a) h) w.
Proof. unfold bind. destruct (m w) as [[a|e] w']; reflexivity. Qed.

Ltac step :=
  first [ rewrite bind_assoc
        | rewrite bind_get
        | rewrite bind_ret
        | rewrite bind_lift_ok
        | rewrite bind_emit
        | rewrite bind_set_conversationHistory
        | rewrite bind_set_currentPersonality
        | rewrite bind_set_isLoading
        | rewrite bind_set_gemini_api_key
        | rewrite bind_set_gemini_chat_data
        | rewrite bind_set_message_input ].

Ltac fields :=
  cbn [conversationHistory currentPersonality isLoading gemini_api_key
       gemini_chat_data message_input log
       with_conversationHistory with_currentPersonality with_isLoading
       with_gemini_api_key with_gemini_chat_data with_message_input
       with_event].

Lemma try_catch_bind_ok {A} (m : M A) (k : A -> M unit) handler w a w' :
  m w = (Ok a, w') -> try_catch (bind m k) handler w = try_catch (k a) handler w'.
Proof. intro H. unfold try_catch, bind. rewrite H. reflexivity. Qed.

Lemma try_catch_bind_throw {A} (m : M A) (k : A -> M unit) handler w e w' :
  m w = (Throw e, w') -> try_catch (bind m k) handler w = handler e w'.
Proof. intro H. unfold try_catch, bind. rewrite H. reflexivity. Qed.

(** ** Rules for invariants *)

Lemma stable_ret {A} I (a : A) : stable I (ret a).
Proof. intros w H. exact H. Qed.

Lemma stable_lift {A} I (o : outcome A) : stable I (lift o).
Proof. intros w H. exact H. Qed.

Lemma stable_get I : stable I get.
Proof. intros w H. exact H. Qed.

Lemma stable_bind {A B} I (m : M A) (k : A -> M B) :
  stable I m -> (forall a, stable I (k a)) -> stable I (bind m k).
Proof.
  intros Hm Hk w Hw. unfold bind. specialize (Hm w Hw).
  destruct (m w) as [[a|e] w']; simpl in *.
  - apply Hk. exact Hm.
  - exact Hm.
Qed.

Lemma stable_get_bind {B} (I : world -> Prop) (k : world -> M B) :
  (forall a, I a -> stable I (k a)) -> stable I (bind get k).
Proof. intros Hk w Hw. rewrite bind_get. apply (Hk w Hw w Hw). Qed.

Lemma stable_try_catch I body handler :
  stable I body -> (forall e, stable I (handler e)) ->
  stable I (try_catch body handler).
Proof.
  intros Hb Hh w Hw. unfold try_catch. specialize (Hb w Hw).
  destruct (body w) as [[[]|e] w']; simpl in *.
  - exact Hb.
  - apply Hh. exact Hb.
Qed.

Lemma stable_settled {A} I (m : M A) : stable I m -> stable I (settled m).
Proof.
  intros Hm w Hw. unfold settled. specialize (Hm w Hw).
  destruct (m w) as [o w']. exact Hm.
Qed.

Lemma stable_if {A} I (b : bool) (m1 m2 : M A) :
  stable I m1 -> stable I m2 -> stable I (if b then m1 else m2).
Proof. destruct b; auto. Qed.

Create HintDb frame.
Create HintDb page.
#[local] Hint Unfold showWelcomeMessage hideWelcomeMessage showSettings hideSettings
  showApiKeyDialog showNotification enableInput disableInput getApiKey
  hasApiKey setApiKey removeApiKey saveData addMessage : page.

Ltac frame_leaf := intros ? ?; cbn in *; solve [ assumption | reflexivity | congruence ].

Ltac frame_step :=
  match goal with
  | |- stable _ (bind get _) => apply stable_get_bind; intros ? ?
  | |- stable _ (bind _ _) => apply stable_bind; [ | intro ]
  | |- stable _ (ret _) => apply stable_ret
  | |- stable _ (lift _) => apply stable_lift
  | |- stable _ get => apply stable_get
  | |- stable _ (try_catch _ _) => apply stable_try_catch; [ | intro ]
  | |- stable _ (settled _) => apply stable_settled
  | |- stable _ (if _ then _ else _) => apply stable_if
  | |- stable _ (match ?x with _ => _ end) => destruct x
  | |- stable _ (emit _) => frame_leaf
  | |- stable _ (set_isLoading _) => frame_leaf
  | |- stable _ (set_gemini_api_key _) => frame_leaf
  | |- stable _ (set_gemini_chat_data _) => frame_leaf
  | |- stable _ (set_message_input _) => frame_leaf
  | |- stable _ _ => solve [ auto with frame ]
  | |- stable _ _ => progress autounfold with page
  end.

Ltac frame := repeat frame_step.

(** ** What leaves the persisted globals alone *)

Lemma addMessage_keeps h p type c : stable (keeps h p) (addMessage type c).
Proof. unfold addMessage. frame. Qed.
#[local] Hint Resolve addMessage_keeps : frame.

Lemma saveData_keeps h p : stable (keeps h p) saveData.
Proof. unfold saveData. frame. Qed.
#[local] Hint Resolve saveData_keeps : frame.

Lemma replay_pair_keeps h p i : stable (keeps h p) (replay_pair i).
Proof. unfold replay_pair. frame. Qed.
#[local] Hint Resolve replay_pair_keeps : frame.

Lemma replay_keeps h p fuel : forall i, stable (keeps h p) (replay fuel i).
Proof.
  induction fuel as [|fuel IH]; intro i; simpl; frame.
Qed.
#[local] Hint Resolve replay_keeps : frame.

Lemma changePersonality_keeps h p : stable (keeps h p) (changePersonality p).
Proof.
  unfold changePersonality, showNotification. frame.
  intros w [H1 H2]. split; [exact H1 | reflexivity].
Qed.
#[local] Hint Resolve changePersonality_keeps : frame.

Lemma changePersonality_current_keeps h p a :
  keeps h p a -> stable (keeps h p) (changePersonality (currentPersonality a)).
Proof. intros [_ H]. rewrite H. apply changePersonality_keeps. Qed.
#[local] Hint Resolve changePersonality_current_keeps : frame.

(** ** Restoring the saved state *)

Lemma get_prop_defined v p x :
  get_prop v p = Ok x -> nullish v = false.
Proof. destruct v; simpl; congruence. Qed.

Lemma get_prop_total v p :
  nullish v = false -> exists x, get_prop v p = Ok x.
Proof. destruct v; simpl; try discriminate; intros _; destruct p; eauto. Qed.

Lemma loadSavedData_object w data h p :
  gemini_chat_data w = Some (JsonText data) ->
  get_prop data p_conversationHistory = Ok h ->
  get_prop data p_currentPersonality = Ok p ->
  keeps (or_else h (VArr [])) (or_else p (VStr "default")) (snd (loadSavedData w)).
Proof.
  intros Hd Hh Hp. unfold loadSavedData.
  rewrite bind_get, Hd. cbn [text_truthy].
  erewrite try_catch_bind_ok by reflexivity.
  rewrite Hh.
  erewrite try_catch_bind_ok by reflexivity.
  erewrite try_catch_bind_ok by reflexivity.
  rewrite Hp.
  erewrite try_catch_bind_ok by reflexivity.
  erewrite try_catch_bind_ok by reflexivity.
  erewrite try_catch_bind_ok by reflexivity.
  cbn [currentPersonality].
  apply stable_try_catch.
  - frame.
  - intro e. frame.
  - split; reflexivity.
Qed.

Lemma loadSavedData_returns w : fst (loadSavedData w) = Ok tt.
Proof.
  unfold loadSavedData. rewrite bind_get.
  destruct (gemini_chat_data w) as [t|]; [|reflexivity].
  destruct (text_truthy t); [|reflexivity].
  unfold try_catch.
  match goal with |- fst (match ?b with _ => _ end) = _ => destruct b as [[[]|e] w'] end;
    reflexivity.
Qed.

Lemma loadSavedData_unreadable w :
  unreadable (gemini_chat_data w) ->
  keeps (conversationHistory w) (currentPersonality w) (snd (loadSavedData w)).
Proof.
  intro H. unfold loadSavedData. rewrite bind_get.
  destruct (gemini_chat_data w) as [[|why|v]|]; cbn in *; try (split; reflexivity).
  destruct v; try discriminate; split; reflexivity.
Qed.

Lemma querySelector_plain id :
  plain_id id = true -> querySelector id = Ok (selector id).
Proof. intro H. unfold querySelector. rewrite H. reflexivity. Qed.

Lemma known_plain id : In id known_ids -> plain_id id = true.
Proof.
  unfold known_ids. simpl.
  intros [<-|[<-|[<-|[<-|[<-|[]]]]]]; reflexivity.
Qed.

Lemma changePersonality_sets w id :
  plain_id id = true ->
  currentPersonality (snd (changePersonality (VStr id) w)) = VStr id.
Proof.
  intro P. unfold changePersonality.
  erewrite bind_ok by reflexivity.
  erewrite bind_ok by reflexivity.
  erewrite bind_ok by (rewrite (querySelector_plain id P); reflexivity).
  erewrite bind_ok by reflexivity.
  erewrite bind_ok by reflexivity.
  match goal with |- currentPersonality (snd (?m ?w')) = _ =>
    assert (S : stable (fun x => currentPersonality x = VStr id) m) by frame;
    apply S end.
  reflexivity.
Qed.

(** ** Request assembly *)

Lemma build_contents_array id h m :
  build_contents (VStr id) (VArr h) m = Ok (assembled id h m).
Proof. reflexivity. Qed.


Lemma callGeminiAPI_request_array w id h m :
  currentPersonality w = VStr id -> conversationHistory w = VArr h ->
  fst (callGeminiAPI_request m w) = Ok tt
  /\ log (snd (callGeminiAPI_request m w))
     = (log w ++ [Fetch (request_url w) (requestData (assembled id h m))])%list
  /\ keeps (VArr h) (VStr id) (snd (callGeminiAPI_request m w))
  /\ isLoading (snd (callGeminiAPI_request m w)) = isLoading w
  /\ gemini_api_key (snd (callGeminiAPI_request m w)) = gemini_api_key w
  /\ gemini_chat_data (snd (callGeminiAPI_request m w)) = gemini_chat_data w.
Proof.
  intros Hp Hh. unfold callGeminiAPI_request, getApiKey.
  rewrite bind_assoc, bind_get.
  erewrite bind_ok by reflexivity.
  rewrite bind_get, Hp, Hh, build_contents_array.
  rewrite bind_lift_ok. unfold request_url, keeps. repeat split; cbn; auto.
Qed.

(** ** Responses *)

Lemma failure_always_throws body :
  exists e, callGeminiAPI_response (Responded false body) = Throw e.
Proof.
  unfold callGeminiAPI_response.
  destruct (JSON_parse body) as [d|e]; cbn; [|eauto].
  destruct (get_prop d p_error) as [err|e]; cbn; [|eauto].
  destruct (get_prop_opt err p_message) as [msg|e]; cbn; [|eauto].
  destruct (ToString _) as [s|e]; cbn; eauto.
Qed.

Lemma sendMessage_begin_keeps h p : stable (keeps h p) sendMessage_begin.
Proof.
  unfold sendMessage_begin, sendMessage_catch, sendMessage_finally,
    callGeminiAPI_request.
  frame.
Qed.

Lemma sendMessage_resume_failed message r e w :
  callGeminiAPI_response r = Throw e ->
  sendMessage_resume message r w
  = (sendMessage_catch e ;; sendMessage_finally) w.
Proof.
  intro H. unfold sendMessage_resume. rewrite H.
  unfold bind at 1. erewrite try_catch_bind_throw by reflexivity.
  reflexivity.
Qed.

Lemma sendMessage_resume_failed_keeps h p message r e :
  callGeminiAPI_response r = Throw e ->
  stable (keeps h p) (sendMessage_resume message r).
Proof.
  intros H w Hw. rewrite (sendMessage_resume_failed _ _ _ _ H).
  revert w Hw. fold (stable (keeps h p) (sendMessage_catch e ;; sendMessage_finally)).
  unfold sendMessage_catch, sendMessage_finally. frame.
Qed.

Lemma sendMessage_failed_keeps h p r e :
  callGeminiAPI_response r = Throw e ->
  stable (keeps h p) (sendMessage r).
Proof.
  intro H. unfold sendMessage. frame.
  - apply sendMessage_begin_keeps.
  - apply (sendMessage_resume_failed_keeps _ _ _ _ _ H).
Qed.

Lemma nullish_get_prop v p : nullish v = true -> exists e, get_prop v p = Throw e.
Proof. destruct v; try discriminate; simpl; eauto. Qed.

Lemma nullish_get_index v i : nullish v = true -> exists e, get_index v i = Throw e.
Proof. destruct v; try discriminate; simpl; eauto. Qed.

(** ** The guards of [sendMessage] *)

Lemma hasApiKey_absent w : credential_absent w -> hasApiKey w = (Ok false, w).
Proof. intros [H|H]; unfold hasApiKey, getApiKey, bind, get, ret; rewrite H; reflexivity. Qed.

Lemma hasApiKey_present w key :
  gemini_api_key w = Some key -> key <> EmptyString -> hasApiKey w = (Ok true, w).
Proof.
  intros H N. unfold hasApiKey, getApiKey, bind, get, ret. rewrite H.
  destruct (String.eqb_spec key EmptyString); [contradiction|].
  destruct key; [contradiction|]. reflexivity.
Qed.

Lemma sendMessage_blocked w r :
  trim (message_input w) = EmptyString \/ isLoading w = true ->
  sendMessage r w = (Ok tt, w).
Proof.
  intro H. unfold sendMessage, sendMessage_begin.
  rewrite bind_assoc, bind_get.
  assert (E : (String.eqb (trim (message_input w)) EmptyString || isLoading w) = true).
  { destruct H as [-> | ->]; [reflexivity | apply orb_true_r]. }
  rewrite E. reflexivity.
Qed.

Lemma sendMessage_no_key w r :
  trim (message_input w) <> EmptyString -> isLoading w = false -> credential_absent w ->
  conversationHistory (snd (sendMessage r w)) = conversationHistory w
  /\ currentPersonality (snd (sendMessage r w)) = currentPersonality w
  /\ log (snd (sendMessage r w))
     = (log w ++ [SettingsModal true; ApiKeyInputSet EmptyString])%list.
Proof.
  intros Hm Hl Hk. unfold sendMessage, sendMessage_begin.
  rewrite bind_assoc, bind_get.
  destruct (String.eqb_spec (trim (message_input w)) EmptyString); [contradiction|].
  rewrite Hl. cbn [orb].
  rewrite bind_assoc. erewrite bind_ok by (apply hasApiKey_absent; exact Hk).
  cbn [negb]. unfold showApiKeyDialog, showSettings, getApiKey.
  destruct Hk as [Hk|Hk]; cbn; rewrite Hk; rewrite <- app_assoc; auto.
Qed.

Lemma sendMessage_begin_sends w key id h :
  trim (message_input w) <> EmptyString ->
  isLoading w = false ->
  gemini_api_key w = Some key -> key <> EmptyString ->
  currentPersonality w = VStr id ->
  conversationHistory w = VArr h ->
  sendMessage_begin w
  = (Ok (Some (trim (message_input w))),
     with_event (Fetch (request_url w)
                       (requestData (assembled id h (trim (message_input w)))))
       (with_event (MessageAdded "user" (trim (message_input w)))
          (with_isLoading true (with_event (InputDisabled true) w)))).
Proof.
  intros Hm Hl Hk Hne Hp Hh. unfold sendMessage_begin.
  step. destruct (String.eqb_spec (trim (message_input w)) EmptyString); [contradiction|].
  rewrite Hl. cbn [orb].
  erewrite bind_ok by (eapply hasApiKey_present; eassumption).
  cbn [negb]. unfold disableInput, addMessage.
  repeat step. cbn [dom_text nullish ToString]. repeat step.
  erewrite bind_settled.
  2: { unfold callGeminiAPI_request, getApiKey. repeat step. fields.
       rewrite Hp, Hh, build_contents_array. step. reflexivity. }
  fields. unfold request_url. rewrite Hk. reflexivity.
Qed.

(** ** The replay loop *)

Lemma try_catch_ok body handler w w' :
  body w = (Ok tt, w') -> try_catch body handler w = (Ok tt, w').
Proof. intro H. unfold try_catch. rewrite H. reflexivity. Qed.

Lemma get_index_array l n :
  get_index (VArr l) (Z.of_nat n) = Ok (from_option (nth_error l n)).
Proof.
  unfold get_index. destruct (Z.ltb_spec (Z.of_nat n) 0); [lia|].
  rewrite Nat2Z.id. reflexivity.
Qed.

Lemma greater_than_length {A} (l : list A) i :
  greater_than (VNum (Z.of_nat (List.length l))) (Z.of_nat i)
  = Ok (i <? List.length l)%nat.
Proof.
  unfold greater_than, ToNumber, obind. f_equal.
  destruct (Nat.ltb_spec i (List.length l)),
           (Z.ltb_spec (Z.of_nat i) (Z.of_nat (List.length l)));
    auto; exfalso; lia.
Qed.

Lemma turn_value_truthy t : truthy (turn_value t) = true.
Proof. reflexivity. Qed.

Lemma turn_value_text t :
  (let! parts := get_prop (turn_value t) p_parts in
   let! part := get_index parts 0 in
   get_prop part p_text) = Ok (VStr (turn_text t)).
Proof. reflexivity. Qed.

Lemma addMessage_string type s w :
  addMessage type (VStr s) w = (Ok tt, with_event (MessageAdded type s) w).
Proof. reflexivity. Qed.

Lemma replay_pair_both w l n a b :
  conversationHistory w = VArr l ->
  nth_error l n = Some (turn_value a) ->
  nth_error l (S n) = Some (turn_value b) ->
  replay_pair (Z.of_nat n) w
  = (Ok tt, with_event (MessageAdded "bot" (turn_text b))
              (with_event (MessageAdded "user" (turn_text a)) w)).
Proof.
  intros Hh Ha Hb. unfold replay_pair. step. rewrite Hh.
  replace (Z.of_nat n + 1)%Z with (Z.of_nat (S n)) by lia.
  rewrite !get_index_array, Ha, Hb. cbn [from_option].
  step. rewrite turn_value_truthy. step. rewrite turn_value_truthy.
  cbn [obind]. rewrite !turn_value_text. step.
  erewrite bind_ok by apply addMessage_string.
  step. apply addMessage_string.
Qed.

Lemma replay_pair_single w l n a :
  conversationHistory w = VArr l ->
  nth_error l n = Some (turn_value a) ->
  nth_error l (S n) = None ->
  replay_pair (Z.of_nat n) w = (Ok tt, w).
Proof.
  intros Hh Ha Hb. unfold replay_pair. step. rewrite Hh.
  replace (Z.of_nat n + 1)%Z with (Z.of_nat (S n)) by lia.
  rewrite !get_index_array, Ha, Hb. cbn [from_option].
  step. rewrite turn_value_truthy. step. reflexivity.
Qed.

Lemma replay_done fuel w l i :
  conversationHistory w = VArr l -> (List.length l <= i)%nat ->
  replay (S fuel) (Z.of_nat i) w = (Ok tt, w).
Proof.
  intros Hh Hi. cbn [replay]. step. rewrite Hh. cbn [get_prop]. step.
  rewrite greater_than_length. step.
  destruct (Nat.ltb_spec i (List.length l)); [lia|]. reflexivity.
Qed.

Lemma replay_turns fuel : forall pre rest w,
  conversationHistory w = VArr (map turn_value (pre ++ rest)) ->
  (List.length rest + 1 < 2 * fuel)%nat ->
  replay fuel (Z.of_nat (List.length pre)) w
  = (Ok tt, with_events (rendering rest) w).
Proof.
  induction fuel as [|fuel IH]; intros pre rest w Hh Hf; [lia|].
  destruct rest as [|a [|b rest]].
  - apply (replay_done fuel w _ _ Hh). rewrite length_map, app_nil_r. lia.
  - cbn [replay]. step. rewrite Hh. cbn [get_prop]. step.
    rewrite greater_than_length. step.
    destruct (Nat.ltb_spec (List.length pre) (List.length (map turn_value (pre ++ [a]))));
      [|rewrite length_map, length_app in *; simpl in *; lia].
    erewrite bind_ok.
    2: { apply (replay_pair_single w _ _ a Hh).
         - rewrite map_app, nth_error_app2 by (rewrite length_map; lia).
           rewrite length_map, Nat.sub_diag. reflexivity.
         - apply nth_error_None. rewrite length_map, length_app. simpl. lia. }
    replace (Z.of_nat (List.length pre) + 2)%Z
      with (Z.of_nat (S (S (List.length pre)))) by lia.
    destruct fuel as [|fuel]; [simpl in Hf; lia|].
    apply (replay_done fuel w _ _ Hh).
    rewrite length_map, length_app. simpl. lia.
  - cbn [replay]. step. rewrite Hh. cbn [get_prop]. step.
    rewrite greater_than_length. step.
    destruct (Nat.ltb_spec (List.length pre)
                (List.length (map turn_value (pre ++ a :: b :: rest))));
      [|rewrite length_map, length_app in *; simpl in *; lia].
    erewrite bind_ok.
    2: { apply (replay_pair_both w _ _ a b Hh).
         - rewrite map_app, nth_error_app2 by (rewrite length_map; lia).
           rewrite length_map, Nat.sub_diag. reflexivity.
         - rewrite map_app, nth_error_app2 by (rewrite length_map; lia).
           rewrite length_map.
           replace (S (List.length pre) - List.length pre)%nat with 1%nat by lia.
           reflexivity. }
    replace (Z.of_nat (List.length pre) + 2)%Z
      with (Z.of_nat (List.length (pre ++ [a; b])))
      by (rewrite length_app; simpl; lia).
    rewrite IH with (rest := rest).
    + reflexivity.
    + fields. rewrite Hh, <- app_assoc. reflexivity.
    + simpl in Hf. lia.
Qed.

(** The fuel that [loadSavedData] gives the loop is never used up: with
    more of it the loop does the same. *)

Lemma replay_pair_history i w :
  conversationHistory (snd (replay_pair i w)) = conversationHistory w.
Proof.
  apply (replay_pair_keeps (conversationHistory w) (currentPersonality w) i w).
  split; reflexivity.
Qed.

Lemma replay_more_fuel extra : forall fuel i w,
  fuel_covers fuel i (conversationHistory w) ->
  replay (fuel + extra) i w = replay fuel i w.
Proof.
  induction fuel as [|fuel IH]; intros i w [H1 H2]; [lia|].
  cbn [Nat.add replay]. rewrite !bind_get.
  destruct (get_prop (conversationHistory w) p_length) as [len|e] eqn:El;
    [|reflexivity].
  rewrite !bind_lift_ok.
  unfold greater_than.
  destruct (ToNumber len) as [[n|]|e] eqn:En; cbn [obind];
    try reflexivity; rewrite !bind_lift_ok; try reflexivity.
  destruct (Z.ltb_spec i n) as [L|L]; [|reflexivity].
  pose proof (replay_pair_history i w) as Hk.
  destruct (replay_pair i w) as [[[]|e] w1] eqn:Ep.
  2: { erewrite !bind_throw by exact Ep. reflexivity. }
  erewrite !bind_ok by exact Ep.
  cbn [snd] in Hk. apply IH. rewrite Hk.
  specialize (H2 len n eq_refl En). split.
  - lia.
  - intros len' n' El' En'. rewrite El in El'. injection El' as <-.
    rewrite En in En'. injection En' as <-. lia.
Qed.

Lemma replay_fuel_covers h len :
  get_prop h p_length = Ok len -> fuel_covers (replay_fuel len) 0 h.
Proof.
  intro El. unfold replay_fuel. split.
  - destruct (ToNumber len) as [[n|]|e]; lia.
  - intros len' n El' En. rewrite El in El'. injection El' as <-.
    rewrite En. lia.
Qed.

(** ** Restoring a history of turns *)

Lemma personality_name_string id :
  exists s, (let! n := getPersonalityName (VStr id) in ToString n) = Ok s.
Proof.
  unfold getPersonalityName. cbn [ToString obind].
  destruct (lookup id names) as [v|] eqn:E.
  - unfold names in E. cbn [lookup] in E.
    repeat match type of E with
           | (if ?c then _ else _) = _ => destruct c
           end;
      try discriminate; injection E as <-; eexists; reflexivity.
  - eexists. reflexivity.
Qed.

Lemma changePersonality_string id w :
  plain_id id = true ->
  exists shown,
    changePersonality (VStr id) w
    = (Ok tt,
       with_event (Notification ("Стиль изменен на: " ++ shown) "success")
         (with_gemini_chat_data
            (Some (JSON_stringify
                     (VObj [ ("conversationHistory", conversationHistory w);
                             ("currentPersonality", VStr id) ])))
            (with_currentPersonality (VStr id)
               (with_event (ButtonActivated (selector id))
                  (with_event ButtonsDeactivated w))))).
Proof.
  intro P. destruct (personality_name_string id) as [shown E]. exists shown.
  unfold changePersonality, saveData, showNotification.
  repeat step. cbn [ToString]. repeat step.
  rewrite (querySelector_plain id P). repeat step. fields. rewrite E. step.
  reflexivity.
Qed.

Lemma changePersonality_refused id w :
  plain_id id = false ->
  changePersonality (VStr id) w
  = (Throw (invalid_selector (selector id)), with_event ButtonsDeactivated w).
Proof.
  intro P. unfold changePersonality. repeat step. cbn [ToString]. repeat step.
  unfold querySelector. rewrite P. reflexivity.
Qed.

Lemma log_with_events es : forall w, log (with_events es w) = (log w ++ es)%list.
Proof.
  induction es as [|e es IH]; intro w.
  - symmetry. apply app_nil_r.
  - change (with_events (e :: es) w) with (with_events es (with_event e w)).
    rewrite IH. cbn. rewrite <- app_assoc. reflexivity.
Qed.

Lemma with_events_keeps es : forall w,
  conversationHistory (with_events es w) = conversationHistory w
  /\ currentPersonality (with_events es w) = currentPersonality w.
Proof.
  induction es as [|e es IH]; intro w; [split; reflexivity|].
  change (with_events (e :: es) w) with (with_events es (with_event e w)).
  destruct (IH (with_event e w)) as [-> ->]. split; reflexivity.
Qed.

Lemma messages_rendering ts : messages (rendering ts) = rendering ts.
Proof.
  unfold messages. revert ts. fix IH 1. intros [|a [|b ts]]; try reflexivity.
  cbn [rendering filter is_message]. rewrite (IH ts). reflexivity.
Qed.



Lemma loadSavedData_turns w data ts p id :
  gemini_chat_data w = Some (JsonText data) ->
  get_prop data p_conversationHistory = Ok (VArr (map turn_value ts)) ->
  get_prop data p_currentPersonality = Ok p ->
  or_else p (VStr "default") = VStr id ->
  plain_id id = true ->
  fst (loadSavedData w) = Ok tt
  /\ conversationHistory (snd (loadSavedData w)) = VArr (map turn_value ts)
  /\ currentPersonality (snd (loadSavedData w)) = VStr id
  /\ messages (log (snd (loadSavedData w))) = (messages (log w) ++ rendering ts)%list.
Proof.
  intros Hd Hh Hp Hid Hplain.
  destruct (changePersonality_string id
              (with_currentPersonality (VStr id)
                 (with_conversationHistory (VArr (map turn_value ts)) w)) Hplain)
    as [shown Hc].
  remember (with_event (Notification ("Стиль изменен на: " ++ shown) "success")
              (with_gemini_chat_data
                 (Some (JSON_stringify
                          (VObj [ ("conversationHistory",
                                   conversationHistory
                                     (with_currentPersonality (VStr id)
                                        (with_conversationHistory
                                           (VArr (map turn_value ts)) w)));
                                  ("currentPersonality", VStr id) ])))
                 (with_currentPersonality (VStr id)
                    (with_event (ButtonActivated (selector id))
                       (with_event ButtonsDeactivated
                          (with_currentPersonality (VStr id)
                             (with_conversationHistory
                                (VArr (map turn_value ts)) w))))))) as w3 eqn:Ew3.
  assert (K3 : conversationHistory w3 = VArr (map turn_value ts)
               /\ currentPersonality w3 = VStr id
               /\ log w3 = (log w ++ [ ButtonsDeactivated;
                                       ButtonActivated (selector id);
                                       Notification ("Стиль изменен на: " ++ shown)
                                                    "success" ])%list).
  { subst w3. fields. rewrite <- !app_assoc. auto. }
  destruct K3 as [K3h [K3p K3l]].
  assert (E : loadSavedData w
              = (Ok tt,
                 if (0 <? List.length (map turn_value ts))%nat
                 then with_events (rendering ts) (with_event (WelcomeDisplay false) w3)
                 else w3)).
  { unfold loadSavedData. step. rewrite Hd. cbn [text_truthy].
    apply try_catch_ok.
    cbn [JSON_parse]. step. rewrite Hh. repeat step.
    cbn [or_else truthy]. rewrite Hp. step. rewrite Hid. step. step.
    fields. erewrite bind_ok by exact Hc.
    step. rewrite K3h. cbn [get_prop]. step.
    replace 0%Z with (Z.of_nat 0) by reflexivity.
    rewrite greater_than_length. step.
    destruct (Nat.ltb_spec 0 (List.length (map turn_value ts))) as [L|L];
      [|reflexivity].
    unfold hideWelcomeMessage. step.
    unfold replay_fuel. cbn [ToNumber]. rewrite Nat2Z.id.
    apply (replay_turns _ [] ts).
    - fields. exact K3h.
    - rewrite length_map. lia. }
  rewrite E. cbn [fst snd]. split; [reflexivity|].
  destruct (Nat.ltb_spec 0 (List.length (map turn_value ts))) as [L|L].
  - destruct (with_events_keeps (rendering ts) (with_event (WelcomeDisplay false) w3))
      as [-> ->].
    rewrite log_with_events. fields. rewrite K3l.
    split; [exact K3h|]. split; [exact K3p|].
    unfold messages. rewrite !filter_app. cbn [filter is_message].
    rewrite !app_nil_r. f_equal. apply messages_rendering.
  - split; [exact K3h|]. split; [exact K3p|]. rewrite K3l.
    rewrite length_map in L. destruct ts; [|simpl in L; lia].
    unfold messages. rewrite !filter_app. cbn. rewrite !app_nil_r. reflexivity.
Qed.

(** ** Saving *)

Lemma known_persona_string p :
  known_persona p = true ->
  exists id, p = VStr id /\ In id known_ids /\ or_else p (VStr "default") = VStr id.
Proof.
  destruct p as [| | | |id| |]; try discriminate. intro H. exists id.
  cbn [known_persona] in H. apply existsb_exists in H.
  destruct H as [x [Hin Hx]]. apply String.eqb_eq in Hx. subst x.
  split; [reflexivity|]. split; [exact Hin|].
  unfold or_else. cbn [truthy].
  destruct (String.eqb_spec id EmptyString); [|reflexivity].
  subst id. exfalso. unfold known_ids in Hin. cbn in Hin.
  repeat (destruct Hin as [Hin|Hin]; [discriminate|]). exact Hin.
Qed.

Lemma falsy_persona_default p :
  truthy p = false -> or_else p (VStr "default") = VStr "default".
Proof. intro H. unfold or_else. rewrite H. reflexivity. Qed.

Lemma persona_or_default p :
  known_persona p = true \/ truthy p = false ->
  exists id, or_else p (VStr "default") = VStr id /\ In id known_ids.
Proof.
  intros [K|F].
  - destruct (known_persona_string p K) as [id [_ [Hin E]]]. eauto.
  - exists "default". split; [apply (falsy_persona_default p F)|].
    left. reflexivity.
Qed.

Lemma jsonify_turns ts :
  jsonify (VArr (map turn_value ts)) = VArr (map turn_value ts).
Proof.
  cbn [jsonify]. f_equal. rewrite map_map. apply map_ext_in. intros t _. reflexivity.
Qed.

Lemma saved_snapshot w ts id :
  conversationHistory w = VArr (map turn_value ts) ->
  currentPersonality w = VStr id ->
  gemini_chat_data (snd (saveData w))
  = Some (JsonText (VObj [ ("conversationHistory", VArr (map turn_value ts));
                           ("currentPersonality", VStr id) ])).
Proof.
  intros Hh Hp. unfold saveData. step. rewrite Hh, Hp.
  cbn [set_gemini_chat_data snd gemini_chat_data with_gemini_chat_data].
  unfold JSON_stringify.
  change (jsonify (VObj [ ("conversationHistory", VArr (map turn_value ts));
                          ("currentPersonality", VStr id) ]))
    with (VObj [ ("conversationHistory", jsonify (VArr (map turn_value ts)));
                 ("currentPersonality", VStr id) ]).
  rewrite jsonify_turns. reflexivity.
Qed.

(** ** The sliding window *)

(** ** Lists *)
Lemma slice_last_short {A} k (l : list A) :
  (List.length l <= k)%nat -> slice_last k l = l.
Proof.
  intro H. unfold slice_last.
  replace (List.length l - k)%nat with 0%nat by lia. reflexivity.
Qed.

Lemma slice_last_length {A} k (l : list A) :
  List.length (slice_last k l) = Nat.min k (List.length l).
Proof. unfold slice_last. rewrite length_skipn. lia. Qed.

Lemma slice_last_app {A} k (l l' : list A) :
  slice_last k (slice_last k l ++ l') = slice_last k (l ++ l').
Proof.
  destruct (Nat.le_gt_cases (List.length l) k) as [H|H].
  - rewrite (slice_last_short k l H). reflexivity.
  - unfold slice_last at 1 3. rewrite !length_app, slice_last_length.
    replace (Nat.min k (List.length l)) with k by lia.
    rewrite !skipn_app. unfold slice_last. rewrite skipn_skipn, length_skipn.
    f_equal; f_equal; lia.
Qed.

Lemma record_exchange_array w h message response :
  conversationHistory w = VArr h ->
  record_exchange message response w
  = (Ok tt,
     with_conversationHistory
       (VArr (capped (h ++ [ turn "user" (VStr message); turn "model" response ])))
       w).
Proof.
  intro Hh. unfold record_exchange. step. rewrite Hh.
  unfold set_conversationHistory, capped. do 3 f_equal.
  destruct (Z.ltb_spec CONFIG.MAX_HISTORY_LENGTH
              (Z.of_nat (List.length (h ++ [turn "user" (VStr message);
                                            turn "model" response]))));
    [reflexivity|].
  symmetry. apply slice_last_short. unfold CONFIG.MAX_HISTORY_LENGTH in *. lia.
Qed.

Lemma updateContextInfo_array w h :
  conversationHistory w = VArr h ->
  updateContextInfo w
  = (Ok tt,
     with_event (ContextInfo (string_of_Z (Z.of_nat (List.length h)))
                             (percentage (Some (Z.of_nat (List.length h))))) w).
Proof.
  intro Hh. unfold updateContextInfo. step. rewrite Hh. cbn [get_prop]. step.
  cbn [dom_text nullish ToString]. step. cbn [ToNumber]. step. reflexivity.
Qed.

Lemma sendMessage_resume_ok w h message r reply :
  conversationHistory w = VArr h ->
  callGeminiAPI_response r = Ok (VStr reply) ->
  exists w',
    sendMessage_resume message r w = (Ok tt, w')
    /\ conversationHistory w'
       = VArr (capped (h ++ [ turn "user" (VStr message); turn "model" (VStr reply) ]))
    /\ currentPersonality w' = currentPersonality w
    /\ isLoading w' = false
    /\ gemini_api_key w' = gemini_api_key w.
Proof.
  intros Hh Hr. unfold sendMessage_resume. eexists.
  split.
  - erewrite bind_ok.
    2: { apply try_catch_ok. rewrite Hr. step.
         erewrite bind_ok by apply addMessage_string.
         erewrite bind_ok by (apply record_exchange_array; fields; exact Hh).
         erewrite bind_ok by (apply updateContextInfo_array; reflexivity).
         unfold saveData. step. reflexivity. }
    unfold sendMessage_finally, enableInput. repeat step. reflexivity.
  - fields. auto.
Qed.

Lemma exchange_once_ok id key h x w :
  key <> EmptyString -> ready id key h w -> successful x ->
  exists w',
    exchange_once x w = (Ok tt, w')
    /\ ready id key (capped (h ++ appended x)) w'.
Proof.
  intros Hkey [Hh [Hp [Hl Hk]]] [Hm [reply Hr]].
  unfold exchange_once. step. unfold sendMessage.
  erewrite bind_ok.
  2: { apply (sendMessage_begin_sends _ key id h); fields; assumption. }
  fields.
  edestruct (sendMessage_resume_ok) as [w' [E [H1 [H2 [H3 H4]]]]];
    [ | exact Hr | ].
  2: { exists w'. split; [exact E|]. unfold ready, appended, reply_of.
       rewrite Hr. rewrite H1, H2, H3, H4. fields. auto. }
  fields. exact Hh.
Qed.

Lemma converse_ok id key xs : forall h w,
  key <> EmptyString -> ready id key h w -> Forall successful xs ->
  exists w',
    converse xs w = (Ok tt, w')
    /\ ready id key (fold_left (fun acc x => capped (acc ++ appended x)) xs h) w'.
Proof.
  induction xs as [|x xs IH]; intros h w Hkey Hw Hxs.
  - exists w. split; [reflexivity | exact Hw].
  - inversion Hxs as [|? ? Hx Hrest]; subst.
    destruct (exchange_once_ok id key h x w Hkey Hw Hx) as [w1 [E1 R1]].
    destruct (IH _ w1 Hkey R1 Hrest) as [w2 [E2 R2]].
    exists w2. split; [|exact R2].
    cbn [converse]. erewrite bind_ok by exact E1. exact E2.
Qed.

Lemma capped_fold xs : forall h,
  (List.length h <= Z.to_nat CONFIG.MAX_HISTORY_LENGTH)%nat ->
  fold_left (fun acc x => capped (acc ++ appended x)) xs h
  = capped (h ++ flat_map appended xs).
Proof.
  induction xs as [|x xs IH]; intros h Hh.
  - cbn. rewrite app_nil_r. symmetry. apply slice_last_short. exact Hh.
  - cbn [fold_left flat_map]. rewrite IH.
    + unfold capped. rewrite slice_last_app, <- app_assoc. reflexivity.
    + unfold capped. rewrite slice_last_length. lia.
Qed.

Lemma appended_length xs : List.length (flat_map appended xs) = (2 * List.length xs)%nat.
Proof. induction xs as [|x xs IH]; [reflexivity|]. cbn. rewrite IH. lia. Qed.

(* ================================================================== *)
(** * The examples of the specification *)
(* ================================================================== *)

(** Sending "Hello" with an empty history and the persona "friend". *)
Example hello_request :
  log (snd (sendMessage_begin
              (with_message_input "Hello"
                 (with_currentPersonality (VStr "friend") with_key))))
  = [ InputDisabled true;
      MessageAdded "user" "Hello";
      Fetch (CONFIG.GEMINI_API_URL ++ "?key=secret")
            (requestData [ turn "user" (preamble "friend");
                           turn "model" (VStr acknowledgment);
                           turn "user" (VStr "Hello") ]) ].
Proof. vm_compute. reflexivity. Qed.

(** The answer "Hi there" makes the history the two turns of the
    exchange. *)
Example hello_exchange :
  conversationHistory
    (snd (sendMessage (Responded true (success_body "Hi there"))
            (with_message_input "Hello"
               (with_currentPersonality (VStr "friend") with_key))))
  = VArr [ turn "user" (VStr "Hello"); turn "model" (VStr "Hi there") ].
Proof. vm_compute. reflexivity. Qed.

(** A failure that says "quota exceeded" is shown to the user and leaves
    the history empty. *)
Example quota_exchange :
  conversationHistory
    (snd (sendMessage (Responded false quota_body)
            (with_message_input "Hello" with_key)))
  = VArr []
  /\ messages
       (log (snd (sendMessage (Responded false quota_body)
                    (with_message_input "Hello" with_key))))
     = [ MessageAdded "user" "Hello";
         MessageAdded "bot" "Ошибка: quota exceeded" ].
Proof. vm_compute. split; reflexivity. Qed.

(* ================================================================== *)
(** * The claims *)
(* ================================================================== *)

(** ** C1: the active persona *)

(** Claim C1, as the code has it.  [changePersonality] makes the id it is
    given the active persona whenever it returns, and it returns for
    every plain id; when it raises, which it does only for an id that
    spoils the selector, the active persona is the one from before.
    [loadSavedData] makes the stored persona value the active persona
    when that value is truthy and ["default"] when it is missing or
    falsy.  Neither compares the id with the known set.  Hence the
    active persona is in the known set after [changePersonality] with a
    known id, and after [loadSavedData] of a snapshot whose persona value
    is a known id, missing or falsy. *)
Theorem persona_is_the_one_given w :
  (forall id,
      (fst (changePersonality (VStr id) w) = Ok tt ->
       currentPersonality (snd (changePersonality (VStr id) w)) = VStr id)
      /\ (forall e,
            fst (changePersonality (VStr id) w) = Throw e ->
            currentPersonality (snd (changePersonality (VStr id) w))
            = currentPersonality w)
      /\ (plain_id id = true -> fst (changePersonality (VStr id) w) = Ok tt)
      /\ (known_persona (VStr id) = true ->
          fst (changePersonality (VStr id) w) = Ok tt
          /\ known_persona (currentPersonality (snd (changePersonality (VStr id) w)))
             = true))
  /\ (forall data p,
        gemini_chat_data w = Some (JsonText data) ->
        get_prop data p_currentPersonality = Ok p ->
        currentPersonality (snd (loadSavedData w)) = or_else p (VStr "default")
        /\ (known_persona p = true \/ truthy p = false ->
            known_persona (currentPersonality (snd (loadSavedData w))) = true)).
Proof.
  split.
  - intro id. destruct (plain_id id) eqn:P.
    + destruct (changePersonality_string id w P) as [shown E]. rewrite E.
      cbn [fst snd]. fields.
      split; [reflexivity|]. split; [discriminate|]. auto.
    + rewrite (changePersonality_refused id w P). cbn [fst snd]. fields.
      split; [discriminate|]. split; [reflexivity|]. split; [discriminate|].
      intro K. destruct (known_persona_string (VStr id) K) as [x [[= <-] [Hin _]]].
      rewrite (known_plain id Hin) in P. discriminate.
  - intros data p Hd Hp.
    destruct (get_prop_total data p_conversationHistory
                (get_prop_defined _ _ _ Hp)) as [h Hh].
    destruct (loadSavedData_object w data h p Hd Hh Hp) as [_ E].
    rewrite E. split; [reflexivity|].
    unfold or_else. intros [K|F].
    + destruct (truthy p); [exact K | reflexivity].
    + rewrite F. reflexivity.
Qed.

Lemma persona_is_the_one_given_witness :
  known_persona
    (currentPersonality
       (snd (loadSavedData (initial None (Some (JsonText poet_snapshot))))))
  = true.
Proof.
  apply (proj2 (proj2 (persona_is_the_one_given
                         (initial None (Some (JsonText poet_snapshot))))
                  poet_snapshot (VStr "poet") eq_refl eq_refl)).
  left. reflexivity.
Defined.

(** An id with a double quote in it: the selector does not parse,
    [changePersonality] raises, and the persona stays ["default"]. *)
Lemma quoted_persona_is_refused :
  fst (changePersonality (VStr ("a" ++ dquote ++ "b")) (initial None None))
  = Throw (invalid_selector (selector ("a" ++ dquote ++ "b")))
  /\ currentPersonality
       (snd (changePersonality (VStr ("a" ++ dquote ++ "b")) (initial None None)))
     = VStr "default".
Proof. split; vm_compute; reflexivity. Qed.

(** Claim C1 as stated fails: an id outside the known set, given to
    [changePersonality] or found in the stored snapshot, becomes the
    active persona. *)
Lemma unknown_persona_is_kept :
  currentPersonality (snd (changePersonality (VStr "hacker") (initial None None)))
    = VStr "hacker"
  /\ currentPersonality
       (snd (loadSavedData
               (initial None
                  (Some (JsonText (VObj [ ("conversationHistory", VArr []);
                                          ("currentPersonality", VStr "hacker") ]))))))
     = VStr "hacker"
  /\ known_persona (VStr "hacker") = false.
Proof. repeat split; vm_compute; reflexivity. Qed.

(** ** C2: the sliding window *)

(** Claim C2.  After N successful exchanges from an empty history, with
    2N above [MAX_HISTORY_LENGTH], the history has exactly
    [MAX_HISTORY_LENGTH] entries: the turns appended last, in the order
    in which they were appended. *)
Theorem history_is_the_latest_turns w id key xs :
  conversationHistory w = VArr [] ->
  currentPersonality w = VStr id ->
  isLoading w = false ->
  gemini_api_key w = Some key -> key <> EmptyString ->
  Forall successful xs ->
  (CONFIG.MAX_HISTORY_LENGTH < 2 * Z.of_nat (List.length xs))%Z ->
  exists h,
    fst (converse xs w) = Ok tt
    /\ conversationHistory (snd (converse xs w)) = VArr h
    /\ Z.of_nat (List.length h) = CONFIG.MAX_HISTORY_LENGTH
    /\ h = skipn (2 * List.length xs - Z.to_nat CONFIG.MAX_HISTORY_LENGTH)
                 (flat_map appended xs).
Proof.
  intros Hh Hp Hl Hk Hkey Hxs HN.
  destruct (converse_ok id key xs [] w Hkey (conj Hh (conj Hp (conj Hl Hk))) Hxs)
    as [w' [E [R _]]].
  rewrite capped_fold in R by (cbn; lia). cbn [app] in R.
  exists (capped (flat_map appended xs)).
  rewrite E. cbn [fst snd]. split; [reflexivity|]. split; [exact R|].
  unfold capped, slice_last. rewrite length_skipn, appended_length.
  unfold CONFIG.MAX_HISTORY_LENGTH in *. split; [lia | reflexivity].
Qed.

Lemma history_is_the_latest_turns_witness :
  exists h,
    fst (converse eleven_exchanges with_key) = Ok tt
    /\ conversationHistory (snd (converse eleven_exchanges with_key)) = VArr h
    /\ Z.of_nat (List.length h) = CONFIG.MAX_HISTORY_LENGTH
    /\ h = skipn (2 * List.length eleven_exchanges
                  - Z.to_nat CONFIG.MAX_HISTORY_LENGTH)
                 (flat_map appended eleven_exchanges).
Proof.
  apply (history_is_the_latest_turns with_key "default" "secret" eleven_exchanges);
    try reflexivity.
  - discriminate.
  - repeat constructor; try (vm_compute; discriminate);
      exists "Hi there"; reflexivity.
Defined.

(** ** C3: the message list of a request *)

(** Claim C3.  For a known persona, a history [h] and a message [m], the
    message list is: a turn of role "user" whose text is the persona's
    preamble, a string; a turn of role "model" whose text is the
    acknowledgment; the entries of [h] in order; a turn of role "user"
    whose text is [m].  It has [2 + length h + 1] entries, and it is the
    [contents] of the request that [callGeminiAPI] hands to [fetch]. *)
Theorem request_contents_layout id h m :
  In id known_ids ->
  exists text,
    lookup id CONFIG.PERSONALITIES = Some (VStr text)
    /\ build_contents (VStr id) (VArr h) m
       = Ok (turn_value {| turn_role := "user"; turn_text := text |}
               :: turn_value {| turn_role := "model";
                                turn_text := "Понял! Буду следовать этому стилю." |}
               :: h ++ [ turn_value {| turn_role := "user"; turn_text := m |} ])%list
    /\ (forall entries,
          build_contents (VStr id) (VArr h) m = Ok entries ->
          List.length entries = (2 + List.length h + 1)%nat)
    /\ (forall w,
          currentPersonality w = VStr id -> conversationHistory w = VArr h ->
          exists body,
            log (snd (callGeminiAPI_request m w))
            = (log w ++ [ Fetch (request_url w) body ])%list
            /\ contents body
               = (turn_value {| turn_role := "user"; turn_text := text |}
                    :: turn_value {| turn_role := "model";
                                     turn_text := "Понял! Буду следовать этому стилю." |}
                    :: h ++ [ turn_value {| turn_role := "user"; turn_text := m |} ])%list).
Proof.
  intro K.
  assert (P : exists text, lookup id CONFIG.PERSONALITIES = Some (VStr text)).
  { unfold known_ids in K. simpl in K.
    destruct K as [<-|[<-|[<-|[<-|[<-|[]]]]]]; eexists; reflexivity. }
  destruct P as [text P]. exists text. split; [exact P|].
  assert (B : build_contents (VStr id) (VArr h) m
              = Ok (turn_value {| turn_role := "user"; turn_text := text |}
                      :: turn_value {| turn_role := "model";
                                       turn_text := "Понял! Буду следовать этому стилю." |}
                      :: h ++ [ turn_value {| turn_role := "user"; turn_text := m |} ])%list).
  { unfold build_contents. cbn [ToString obind spread]. rewrite P. reflexivity. }
  split; [exact B|]. split.
  - intros entries E. rewrite B in E. injection E as <-.
    cbn [List.length]. rewrite length_app. cbn [List.length]. lia.
  - intros w Hp Hh.
    destruct (callGeminiAPI_request_array w id h m Hp Hh) as [_ [L _]].
    eexists. split; [exact L|].
    cbn [contents requestData]. unfold assembled, preamble. rewrite P.
    reflexivity.
Qed.

Lemma request_contents_layout_witness :
  exists text,
    lookup "friend" CONFIG.PERSONALITIES = Some (VStr text)
    /\ build_contents (VStr "friend") (VArr []) "Hello"
       = Ok [ turn_value {| turn_role := "user"; turn_text := text |};
              turn_value {| turn_role := "model";
                            turn_text := "Понял! Буду следовать этому стилю." |};
              turn_value {| turn_role := "user"; turn_text := "Hello" |} ].
Proof.
  destruct (request_contents_layout "friend" [] "Hello") as [text [P [B _]]].
  - vm_compute. auto.
  - exists text. split; [exact P | exact B].
Defined.

(** ** C4: a response that reports a failure *)

(** Claim C4, as the code has it.  On a response whose status is not a
    success, the call always fails, and [sendMessage] leaves the history
    as it was.  When the body is JSON other than [null], the error
    carries the body's [error.message] if that is a non-empty string, and
    the fallback text if [error] or [error.message] is missing or
    falsy. *)
Theorem failure_is_reported_and_history_kept body :
  (exists e, callGeminiAPI_response (Responded false body) = Throw e)
  /\ (forall w,
        conversationHistory (snd (sendMessage (Responded false body) w))
        = conversationHistory w)
  /\ (forall message w,
        conversationHistory
          (snd (sendMessage_resume message (Responded false body) w))
        = conversationHistory w)
  /\ (forall data err msg,
        body = JsonText data ->
        get_prop data p_error = Ok err ->
        get_prop_opt err p_message = Ok msg ->
        (forall s, msg = VStr s -> s <> EmptyString ->
           callGeminiAPI_response (Responded false body)
           = Throw (mkError PlainError s))
        /\ (truthy msg = false ->
            callGeminiAPI_response (Responded false body)
            = Throw (mkError PlainError fallback_message))).
Proof.
  destruct (failure_always_throws body) as [e He].
  split; [eauto|]. split; [|split].
  - intro w.
    apply (sendMessage_failed_keeps _ (currentPersonality w) _ _ He w).
    split; reflexivity.
  - intros message w.
    apply (sendMessage_resume_failed_keeps _ (currentPersonality w) message _ _ He w).
    split; reflexivity.
  - intros data err msg -> Herr Hmsg. unfold callGeminiAPI_response.
    cbn [JSON_parse obind]. rewrite Herr. cbn [obind]. rewrite Hmsg. cbn [obind].
    split.
    + intros s -> Hs. unfold or_else. cbn [truthy].
      destruct (String.eqb_spec s EmptyString); [contradiction|]. reflexivity.
    + intros F. unfold or_else. rewrite F. reflexivity.
Qed.

Lemma failure_is_reported_and_history_kept_witness :
  callGeminiAPI_response (Responded false quota_body)
  = Throw (mkError PlainError "quota exceeded").
Proof.
  apply (proj1 (proj2 (proj2 (proj2 (failure_is_reported_and_history_kept quota_body)))
                  _ _ _ eq_refl eq_refl eq_refl) "quota exceeded").
  - reflexivity.
  - discriminate.
Defined.

(** Claim C4 as stated fails: a failure response whose body is the JSON
    [null] has no [error.message], yet the error raised is the engine's
    [TypeError], not the fallback text. *)
Lemma null_error_body_is_a_type_error :
  callGeminiAPI_response (Responded false (JsonText VNull))
  = Throw (mkError TypeError "Cannot read properties of null (reading 'error')")
  /\ callGeminiAPI_response (Responded false (JsonText VNull))
     <> Throw (mkError PlainError fallback_message).
Proof. split; [reflexivity | discriminate]. Qed.

(** ** C5: loading when nothing usable is stored *)

(** Claim C5, as the code has it.  [loadSavedData] never raises.  At
    start-up it leaves the history empty and the persona ["default"]
    when the stored item is absent, empty, not JSON, JSON that is not an
    object, or an object whose two properties are missing or falsy.  In
    any state, an item from which nothing can be read leaves history and
    persona as they were; an item that parses to anything but [null]
    sets the history to its [conversationHistory] when that is truthy
    and to the empty list otherwise, and the persona to its
    [currentPersonality] when that is truthy and to ["default"]
    otherwise: a truthy property of a stored object is taken as it is,
    whatever its shape. *)
Theorem load_of_nothing_is_default :
  (forall w, fst (loadSavedData w) = Ok tt)
  /\ (forall key data,
        carries_nothing data ->
        conversationHistory (snd (loadSavedData (initial key data))) = VArr []
        /\ currentPersonality (snd (loadSavedData (initial key data)))
           = VStr "default")
  /\ (forall w,
        unreadable (gemini_chat_data w) ->
        conversationHistory (snd (loadSavedData w)) = conversationHistory w
        /\ currentPersonality (snd (loadSavedData w)) = currentPersonality w)
  /\ (forall w data,
        gemini_chat_data w = Some (JsonText data) -> nullish data = false ->
        exists h p,
          get_prop data p_conversationHistory = Ok h
          /\ get_prop data p_currentPersonality = Ok p
          /\ conversationHistory (snd (loadSavedData w)) = or_else h (VArr [])
          /\ currentPersonality (snd (loadSavedData w))
             = or_else p (VStr "default"))
  /\ (forall w fields h,
        gemini_chat_data w = Some (JsonText (VObj fields)) ->
        lookup "conversationHistory" fields = Some h -> truthy h = true ->
        conversationHistory (snd (loadSavedData w)) = h)
  /\ (forall w fields p,
        gemini_chat_data w = Some (JsonText (VObj fields)) ->
        lookup "currentPersonality" fields = Some p -> truthy p = true ->
        currentPersonality (snd (loadSavedData w)) = p).
Proof.
  split; [exact loadSavedData_returns|].
  assert (R : forall w data,
            gemini_chat_data w = Some (JsonText data) -> nullish data = false ->
            exists h p,
              get_prop data p_conversationHistory = Ok h
              /\ get_prop data p_currentPersonality = Ok p
              /\ conversationHistory (snd (loadSavedData w)) = or_else h (VArr [])
              /\ currentPersonality (snd (loadSavedData w))
                 = or_else p (VStr "default")).
  { intros w data Hd N.
    destruct (get_prop_total data p_conversationHistory N) as [h Hh].
    destruct (get_prop_total data p_currentPersonality N) as [p Hp].
    destruct (loadSavedData_object w data h p Hd Hh Hp) as [E1 E2].
    exists h, p. auto. }
  split; [|split; [exact loadSavedData_unreadable|split; [exact R|split]]].
  2: { intros w fields h Hd L T.
       destruct (R w (VObj fields) Hd eq_refl) as [h' [p' [Hh [_ [E _]]]]].
       cbn [get_prop prop_name] in Hh. rewrite L in Hh. injection Hh as <-.
       rewrite E. unfold or_else. rewrite T. reflexivity. }
  2: { intros w fields p Hd L T.
       destruct (R w (VObj fields) Hd eq_refl) as [h' [p' [_ [Hp [_ E]]]]].
       cbn [get_prop prop_name] in Hp. rewrite L in Hp. injection Hp as <-.
       rewrite E. unfold or_else. rewrite T. reflexivity. }
  intros key data H.
  assert (U : unreadable data \/ exists v, data = Some (JsonText v) /\ nullish v = false).
  { destruct data as [[|why|v]|]; simpl; auto.
    destruct (nullish v) eqn:N; [left; reflexivity | right; eauto]. }
  destruct U as [U|[v [-> N]]].
  - exact (loadSavedData_unreadable (initial key data) U).
  - destruct (get_prop_total v p_conversationHistory N) as [h Hh].
    destruct (get_prop_total v p_currentPersonality N) as [p Hp].
    pose proof (loadSavedData_object (initial key (Some (JsonText v))) v h p
                  eq_refl Hh Hp) as [E1 E2].
    rewrite E1, E2.
    destruct v; simpl in H, Hh, Hp; try discriminate;
      try (injection Hh as <-; injection Hp as <-; split; reflexivity).
    injection Hh as <-; injection Hp as <-. destruct H as [F1 F2].
    unfold or_else. rewrite F1, F2. split; reflexivity.
Qed.

Lemma load_of_nothing_is_default_witness :
  conversationHistory
    (snd (loadSavedData (initial None (Some (InvalidJson "Unexpected token o")))))
  = VArr []
  /\ currentPersonality
       (snd (loadSavedData (initial None (Some (InvalidJson "Unexpected token o")))))
     = VStr "default".
Proof.
  apply (proj1 (proj2 load_of_nothing_is_default) None
               (Some (InvalidJson "Unexpected token o"))).
  exact I.
Defined.

(** Claim C5 as stated fails: a stored object whose [conversationHistory]
    is the number 7 encodes no history, yet after loading the history is
    that number. *)
Lemma ill_shaped_snapshot_is_loaded :
  conversationHistory
    (snd (loadSavedData
            (initial None
               (Some (JsonText (VObj [ ("conversationHistory", VNum 7) ]))))))
  = VNum 7
  /\ VNum 7 <> VArr [].
Proof. split; [vm_compute; reflexivity | discriminate]. Qed.

(** ** C6: a success response of unexpected shape *)

(** Claim C6, as the code has it.  On a success response the call fails
    when a link on the way to [candidates[0].content.parts[0]] is
    missing: the body is not JSON, or one of [candidates],
    [candidates[0]], [content], [parts], [parts[0]] is [null] or
    [undefined].  When the first part is there and its [text] is a
    string, the call returns that string. *)
Theorem broken_reply_shape_fails body :
  (first_part body = None ->
     exists e, callGeminiAPI_response (Responded true body) = Throw e)
  /\ (forall part reply,
        first_part body = Some part ->
        get_prop part p_text = Ok (VStr reply) ->
        callGeminiAPI_response (Responded true body) = Ok (VStr reply)).
Proof.
  unfold first_part, callGeminiAPI_response.
  destruct (JSON_parse body) as [data|e]; cbn [present obind];
    [|split; [eauto | discriminate]].
  destruct (nullish data) eqn:N0.
  { split; [|discriminate]. intros _.
    destruct (nullish_get_prop data p_candidates N0) as [e ->]. cbn. eauto. }
  destruct (get_prop data p_candidates) as [c|e]; cbn [present obind];
    [|split; [eauto | discriminate]].
  destruct (nullish c) eqn:N1.
  { split; [|discriminate]. intros _.
    destruct (nullish_get_index c 0 N1) as [e ->]. cbn. eauto. }
  destruct (get_index c 0) as [c0|e]; cbn [present obind];
    [|split; [eauto | discriminate]].
  destruct (nullish c0) eqn:N2.
  { split; [|discriminate]. intros _.
    destruct (nullish_get_prop c0 p_content N2) as [e ->]. cbn. eauto. }
  destruct (get_prop c0 p_content) as [ct|e]; cbn [present obind];
    [|split; [eauto | discriminate]].
  destruct (nullish ct) eqn:N3.
  { split; [|discriminate]. intros _.
    destruct (nullish_get_prop ct p_parts N3) as [e ->]. cbn. eauto. }
  destruct (get_prop ct p_parts) as [ps|e]; cbn [present obind];
    [|split; [eauto | discriminate]].
  destruct (nullish ps) eqn:N4.
  { split; [|discriminate]. intros _.
    destruct (nullish_get_index ps 0 N4) as [e ->]. cbn. eauto. }
  destruct (get_index ps 0) as [p0|e]; cbn [present obind];
    [|split; [eauto | discriminate]].
  destruct (nullish p0) eqn:N5.
  { split; [|discriminate]. intros _.
    destruct (nullish_get_prop p0 p_text N5) as [e ->]. eauto. }
  split; [discriminate|]. intros part reply [= <-] H. exact H.
Qed.

Lemma broken_reply_shape_fails_witness :
  exists e, callGeminiAPI_response (Responded true (JsonText (VObj []))) = Throw e.
Proof.
  apply (proj1 (broken_reply_shape_fails (JsonText (VObj [])))). reflexivity.
Defined.

(** Claim C6 as stated fails: when the first part is an object without
    [text], the shape is absent, yet the call returns ([undefined])
    instead of failing. *)
Lemma reply_without_text_is_returned :
  callGeminiAPI_response
    (Responded true
       (JsonText
          (VObj [ ("candidates",
                   VArr [ VObj [ ("content",
                                  VObj [ ("parts", VArr [ VObj [] ]) ]) ] ]) ])))
  = Ok VUndefined.
Proof. reflexivity. Qed.

(** ** C7: saving, then loading *)

(** Claim C7.  When the history is a list of turns and the persona a
    known id, [saveData] followed by [loadSavedData], in any world that
    holds the saved item, gives back the same history and the same
    persona, and does not raise. *)
Theorem save_then_load_round_trip w ts id :
  In id known_ids ->
  conversationHistory w = VArr (map turn_value ts) ->
  currentPersonality w = VStr id ->
  forall w',
    gemini_chat_data w' = gemini_chat_data (snd (saveData w)) ->
    fst (loadSavedData w') = Ok tt
    /\ conversationHistory (snd (loadSavedData w')) = conversationHistory w
    /\ currentPersonality (snd (loadSavedData w')) = currentPersonality w.
Proof.
  intros K Hh Hp w' Hd. rewrite (saved_snapshot w ts id Hh Hp) in Hd.
  assert (Hid : or_else (VStr id) (VStr "default") = VStr id).
  { destruct (known_persona_string (VStr id)) as [x [[= <-] [_ E]]]; [|exact E].
    cbn [known_persona]. apply existsb_exists. exists id.
    split; [exact K | apply String.eqb_refl]. }
  destruct (loadSavedData_turns w' _ ts (VStr id) id Hd eq_refl eq_refl Hid
              (known_plain id K))
    as [R [H1 [H2 _]]].
  rewrite Hh, Hp. auto.
Qed.

Lemma save_then_load_round_trip_witness :
  fst (loadSavedData
         (initial None (gemini_chat_data (snd (saveData three_turns_in_memory)))))
  = Ok tt
  /\ conversationHistory
       (snd (loadSavedData
               (initial None (gemini_chat_data (snd (saveData three_turns_in_memory))))))
     = conversationHistory three_turns_in_memory
  /\ currentPersonality
       (snd (loadSavedData
               (initial None (gemini_chat_data (snd (saveData three_turns_in_memory))))))
     = currentPersonality three_turns_in_memory.
Proof.
  apply (save_then_load_round_trip three_turns_in_memory three_turns "teacher").
  - vm_compute. auto.
  - reflexivity.
  - reflexivity.
  - reflexivity.
Defined.

(** ** C8: sends that are held back *)

(** Claim C8, as the code has it.  When the trimmed message is empty, or
    the busy flag is set, or no API key is stored, [sendMessage] calls
    [fetch] not once and leaves history and persona as they were.  When
    the trimmed message is not empty, the busy flag is clear and no key
    is stored, it opens the settings dialog. *)
Theorem held_back_send_is_silent w r :
  trim (message_input w) = EmptyString \/ isLoading w = true \/ credential_absent w ->
  fetches (log (snd (sendMessage r w))) = fetches (log w)
  /\ conversationHistory (snd (sendMessage r w)) = conversationHistory w
  /\ currentPersonality (snd (sendMessage r w)) = currentPersonality w
  /\ (trim (message_input w) <> EmptyString -> isLoading w = false -> credential_absent w ->
      log (snd (sendMessage r w))
      = (log w ++ [SettingsModal true; ApiKeyInputSet EmptyString])%list).
Proof.
  intro H.
  assert (B : (trim (message_input w) = EmptyString \/ isLoading w = true)
              \/ (trim (message_input w) <> EmptyString /\ isLoading w = false
                  /\ credential_absent w)).
  { destruct (String.eqb_spec (trim (message_input w)) EmptyString); [auto|].
    destruct (isLoading w); [auto|].
    destruct H as [H|[H|H]]; [contradiction | discriminate | auto]. }
  destruct B as [B|[Hm [Hl Hk]]].
  - rewrite (sendMessage_blocked w r B). cbn.
    repeat split; try reflexivity.
    intros Hm Hl _. destruct B; [contradiction | congruence].
  - destruct (sendMessage_no_key w r Hm Hl Hk) as [E1 [E2 E3]].
    repeat split; auto.
    rewrite E3. unfold fetches. rewrite filter_app. cbn. apply app_nil_r.
Qed.

Lemma held_back_send_is_silent_witness :
  log (snd (sendMessage (Responded true EmptyText) no_key_typed))
  = [ SettingsModal true; ApiKeyInputSet EmptyString ].
Proof.
  apply (held_back_send_is_silent no_key_typed (Responded true EmptyText)).
  - right. right. left. reflexivity.
  - vm_compute. discriminate.
  - reflexivity.
  - left. reflexivity.
Defined.

(** Claim C8 as stated fails: with no API key stored and an empty
    message box, [sendMessage] returns at its first test and the
    settings dialog is not opened. *)
Lemma empty_message_without_key_opens_nothing :
  gemini_api_key (initial None None) = None
  /\ sendMessage (Responded true EmptyText) (initial None None)
     = (Ok tt, initial None None)
  /\ log (initial None None) = [].
Proof. repeat split. Qed.

(** ** C9: a stored history of odd length *)



(** ** C10: the length of a message *)




(* ================================================================== *)
(** * Further properties *)
(* ================================================================== *)

(** ** The API key *)

(** Property X1.  The key that [setApiKey] stores is the key that
    [getApiKey] returns, and [hasApiKey] holds exactly when that key is
    not the empty string; after [removeApiKey] the key reads as the
    empty string and [hasApiKey] is false.  Storing and removing a key
    leave the history, the persona and the stored chat data alone. *)
Theorem api_key_round_trip w k :
  fst (getApiKey (snd (setApiKey k w))) = Ok k
  /\ fst (hasApiKey (snd (setApiKey k w))) = Ok (negb (String.eqb k EmptyString))
  /\ fst (getApiKey (snd (removeApiKey (snd (setApiKey k w))))) = Ok EmptyString
  /\ fst (hasApiKey (snd (removeApiKey w))) = Ok false
  /\ keeps (conversationHistory w) (currentPersonality w) (snd (setApiKey k w))
  /\ gemini_chat_data (snd (setApiKey k w)) = gemini_chat_data w
  /\ gemini_chat_data (snd (removeApiKey w)) = gemini_chat_data w.
Proof.
  repeat split; try reflexivity.
  unfold hasApiKey, getApiKey, setApiKey. cbn.
  destruct k; reflexivity.
Qed.

(** Property X2.  [saveApiKey] stores the typed key trimmed, after which
    [hasApiKey] holds and the busy flag is clear; a blank entry stores
    nothing, leaves the busy flag as it was and shows an error
    notification.  In both cases nothing is raised, and the history, the
    persona and the stored chat data are unchanged. *)
Theorem saveApiKey_stores_trimmed w typed :
  (trim typed <> EmptyString ->
     gemini_api_key (snd (saveApiKey typed w)) = Some (trim typed)
     /\ fst (hasApiKey (snd (saveApiKey typed w))) = Ok true
     /\ isLoading (snd (saveApiKey typed w)) = false)
  /\ (trim typed = EmptyString ->
        gemini_api_key (snd (saveApiKey typed w)) = gemini_api_key w
        /\ isLoading (snd (saveApiKey typed w)) = isLoading w
        /\ log (snd (saveApiKey typed w))
           = (log w ++ [Notification "Введите API ключ" "error"])%list)
  /\ fst (saveApiKey typed w) = Ok tt
  /\ keeps (conversationHistory w) (currentPersonality w) (snd (saveApiKey typed w))
  /\ gemini_chat_data (snd (saveApiKey typed w)) = gemini_chat_data w.
Proof.
  unfold saveApiKey.
  destruct (String.eqb_spec (trim typed) EmptyString) as [E|E]; cbn [negb].
  - split; [intro; contradiction|]. split; [intros _|]; repeat split.
  - split; [intros _|split; [intro; contradiction|]]; repeat split.
    unfold hasApiKey, getApiKey. cbn.
    destruct (trim typed); [contradiction | reflexivity].
Qed.

Lemma saveApiKey_stores_trimmed_witness :
  gemini_api_key (snd (saveApiKey " abc " (initial None None))) = Some (trim " abc ").
Proof.
  apply (proj1 (saveApiKey_stores_trimmed (initial None None) " abc ")).
  vm_compute. discriminate.
Defined.

(** ** How a send ends *)

Lemma sendMessage_catch_eq e w :
  sendMessage_catch e w
  = (Ok tt, with_event (MessageAdded "bot" ("Ошибка: " ++ message e))
              (with_event (ConsoleError "Ошибка:" e) w)).
Proof. reflexivity. Qed.

Lemma sendMessage_finally_eq w : sendMessage_finally w = (Ok tt, after_finally w).
Proof. reflexivity. Qed.

Lemma try_catch_cases body handler w :
  (exists w', try_catch body handler w = (Ok tt, w'))
  \/ (exists e w', try_catch body handler w = handler e w').
Proof.
  unfold try_catch. destruct (body w) as [[[]|e] w']; [left|right]; eauto.
Qed.

Lemma sendMessage_resume_ends message r w :
  exists w', sendMessage_resume message r w = (Ok tt, after_finally w').
Proof.
  unfold sendMessage_resume.
  match goal with |- context [try_catch ?b ?h] =>
    destruct (try_catch_cases b h w) as [[w1 E]|[e [w1 E]]] end.
  - exists w1. erewrite bind_ok by exact E. reflexivity.
  - eexists. erewrite bind_ok by (rewrite E; apply sendMessage_catch_eq).
    reflexivity.
Qed.

Lemma sendMessage_begin_returns w :
  exists pending w', sendMessage_begin w = (Ok pending, w').
Proof.
  unfold sendMessage_begin. rewrite bind_get.
  destruct (String.eqb (trim (message_input w)) EmptyString || isLoading w);
    [eexists; eexists; reflexivity|].
  unfold hasApiKey, getApiKey. repeat step.
  match goal with |- context [if negb ?c then _ else _] => destruct c end; cbn [negb].
  - unfold disableInput, addMessage. repeat step. cbn [dom_text nullish ToString].
    repeat step.
    match goal with |- context [settled ?m] =>
      match goal with |- context [bind (settled m) ?k ?w0] =>
        destruct (m w0) as [o w1] eqn:E; rewrite (bind_settled m k w0 o w1 E)
      end end.
    destruct o as [[]|e].
    + eexists; eexists; reflexivity.
    + erewrite bind_ok by apply sendMessage_catch_eq.
      erewrite bind_ok by apply sendMessage_finally_eq.
      eexists; eexists; reflexivity.
  - unfold showApiKeyDialog, showSettings, getApiKey. repeat step.
    eexists; eexists; reflexivity.
Qed.

Lemma sendMessage_returns r w : fst (sendMessage r w) = Ok tt.
Proof.
  unfold sendMessage.
  destruct (sendMessage_begin_returns w) as [pending [w1 E]].
  erewrite bind_ok by exact E.
  destruct pending as [m|]; [|reflexivity].
  destruct (sendMessage_resume_ends m r w1) as [w2 ->]. reflexivity.
Qed.

Lemma sendMessage_begin_passed w key :
  trim (message_input w) <> EmptyString ->
  isLoading w = false ->
  gemini_api_key w = Some key -> key <> EmptyString ->
  (exists w1, sendMessage_begin w = (Ok (Some (trim (message_input w))), w1))
  \/ (exists w1, sendMessage_begin w = (Ok None, after_finally w1)).
Proof.
  intros Hm Hl Hk Hne. unfold sendMessage_begin. rewrite bind_get.
  destruct (String.eqb_spec (trim (message_input w)) EmptyString); [contradiction|].
  rewrite Hl. cbn [orb].
  erewrite bind_ok by (eapply hasApiKey_present; eassumption).
  cbn [negb]. unfold disableInput, addMessage. repeat step.
  cbn [dom_text nullish ToString]. repeat step.
  match goal with |- context [bind (settled ?m) ?k ?w0] =>
    destruct (m w0) as [o w1] eqn:E; rewrite (bind_settled m k w0 o w1 E)
  end.
  destruct o as [[]|e].
  - left. eexists. reflexivity.
  - right. erewrite bind_ok by apply sendMessage_catch_eq.
    erewrite bind_ok by apply sendMessage_finally_eq.
    eexists. reflexivity.
Qed.

(** Property X3.  [sendMessage] never raises, whatever the network
    answers and whatever the state: every error is caught inside.  When
    the message is not blank, the busy flag is clear and a key is
    stored, it ends with the busy flag clear and the message box
    empty. *)
Theorem sendMessage_never_raises r w :
  fst (sendMessage r w) = Ok tt
  /\ (forall key,
        trim (message_input w) <> EmptyString ->
        isLoading w = false ->
        gemini_api_key w = Some key -> key <> EmptyString ->
        isLoading (snd (sendMessage r w)) = false
        /\ message_input (snd (sendMessage r w)) = EmptyString).
Proof.
  split; [apply sendMessage_returns|].
  intros key Hm Hl Hk Hne. unfold sendMessage.
  destruct (sendMessage_begin_passed w key Hm Hl Hk Hne) as [[w1 E]|[w1 E]];
    erewrite bind_ok by exact E.
  - destruct (sendMessage_resume_ends (trim (message_input w)) r w1) as [w2 ->].
    split; reflexivity.
  - split; reflexivity.
Qed.

Lemma sendMessage_never_raises_witness :
  isLoading (snd (sendMessage (Rejected offline) hello_typed)) = false
  /\ message_input (snd (sendMessage (Rejected offline) hello_typed)) = EmptyString.
Proof.
  apply (proj2 (sendMessage_never_raises (Rejected offline) hello_typed) "secret").
  - vm_compute. discriminate.
  - vm_compute; reflexivity.
  - vm_compute; reflexivity.
  - discriminate.
Defined.

(** Property X4.  When the call fails with the error [e] (the network
    is down, the status is not a success, the body cannot be read), the
    rest of [sendMessage] logs [e] to the console, shows
    "Ошибка: " followed by the message of [e] as a bot message, empties
    the message box, enables the input and clears the busy flag; the
    history, the persona, the stored chat data and the key are
    unchanged. *)
Theorem failed_call_is_shown_and_changes_nothing sent r e w :
  callGeminiAPI_response r = Throw e ->
  sendMessage_resume sent r w = (Ok tt, after_failure e w)
  /\ conversationHistory (after_failure e w) = conversationHistory w
  /\ currentPersonality (after_failure e w) = currentPersonality w
  /\ gemini_chat_data (after_failure e w) = gemini_chat_data w
  /\ gemini_api_key (after_failure e w) = gemini_api_key w
  /\ message_input (after_failure e w) = EmptyString
  /\ isLoading (after_failure e w) = false
  /\ log (after_failure e w)
     = (log w ++ [ ConsoleError "Ошибка:" e;
                   MessageAdded "bot" ("Ошибка: " ++ message e);
                   InputDisabled false ])%list.
Proof.
  intro H. split.
  - rewrite (sendMessage_resume_failed _ _ _ _ H). reflexivity.
  - repeat split. cbn. rewrite <- !app_assoc. reflexivity.
Qed.

Lemma failed_call_is_shown_and_changes_nothing_witness :
  sendMessage_resume "Hello" (Rejected offline) with_key
  = (Ok tt, after_failure offline with_key).
Proof.
  apply (failed_call_is_shown_and_changes_nothing "Hello" (Rejected offline)
           offline with_key).
  reflexivity.
Defined.

(** ** An answered exchange *)

Lemma sendMessage_resume_saved w h sent r reply :
  conversationHistory w = VArr h ->
  callGeminiAPI_response r = Ok (VStr reply) ->
  exists w',
    sendMessage_resume sent r w = (Ok tt, w')
    /\ conversationHistory w'
       = VArr (capped (h ++ [ turn "user" (VStr sent); turn "model" (VStr reply) ]))
    /\ currentPersonality w' = currentPersonality w
    /\ isLoading w' = false
    /\ gemini_api_key w' = gemini_api_key w
    /\ message_input w' = EmptyString
    /\ gemini_chat_data w' = stored (conversationHistory w') (currentPersonality w)
    /\ log w'
       = (log w
            ++ [ MessageAdded "bot" reply;
                 gauge (List.length
                          (capped (h ++ [ turn "user" (VStr sent);
                                          turn "model" (VStr reply) ])));
                 InputDisabled false ])%list.
Proof.
  intros Hh Hr. unfold sendMessage_resume. eexists.
  split.
  - erewrite bind_ok.
    2: { apply try_catch_ok. rewrite Hr. step.
         erewrite bind_ok by apply addMessage_string.
         erewrite bind_ok by (apply record_exchange_array; fields; exact Hh).
         erewrite bind_ok by (apply updateContextInfo_array; reflexivity).
         unfold saveData. step. reflexivity. }
    unfold sendMessage_finally, enableInput. repeat step. reflexivity.
  - fields. unfold stored, gauge. repeat split; auto.
    rewrite <- !app_assoc. reflexivity.
Qed.

Lemma capped_length l :
  List.length (capped l) = Nat.min 20 (List.length l).
Proof. unfold capped. rewrite slice_last_length. reflexivity. Qed.

(** One exchange from a world that is ready. *)
Lemma exchange_once_saved id key h x w reply :
  key <> EmptyString -> ready id key h w ->
  trim (typed x) <> EmptyString ->
  callGeminiAPI_response (answer x) = Ok (VStr reply) ->
  exists w',
    exchange_once x w = (Ok tt, w')
    /\ ready id key
         (capped (h ++ [ turn "user" (VStr (trim (typed x)));
                         turn "model" (VStr reply) ])) w'
    /\ message_input w' = EmptyString
    /\ gemini_chat_data w' = stored (conversationHistory w') (VStr id)
    /\ log w'
       = (log w
            ++ [ InputDisabled true;
                 MessageAdded "user" (trim (typed x));
                 Fetch (CONFIG.GEMINI_API_URL ++ "?key=" ++ key)
                       (requestData (assembled id h (trim (typed x))));
                 MessageAdded "bot" reply;
                 gauge (List.length
                          (capped (h ++ [ turn "user" (VStr (trim (typed x)));
                                          turn "model" (VStr reply) ])));
                 InputDisabled false ])%list.
Proof.
  intros Hkey [Hh [Hp [Hl Hk]]] Hm Hr.
  unfold exchange_once. step. unfold sendMessage.
  erewrite bind_ok.
  2: { apply (sendMessage_begin_sends _ key id h); fields; assumption. }
  fields.
  edestruct (sendMessage_resume_saved) as [w' [E [H1 [H2 [H3 [H4 [H5 [H6 H7]]]]]]]];
    [ | exact Hr | ].
  2: { exists w'. split; [exact E|]. unfold ready.
       rewrite H1, H2, H3, H4, H5, H6, H7. fields. rewrite Hp, Hk.
       unfold request_url. fields. rewrite Hk.
       repeat split; auto.
       - rewrite H1. reflexivity.
       - do 3 rewrite <- app_assoc. reflexivity. }
  fields. exact Hh.
Qed.

Lemma stored_turns ts id :
  stored (VArr (map turn_value ts)) (VStr id)
  = Some (JsonText (VObj [ ("conversationHistory", VArr (map turn_value ts));
                           ("currentPersonality", VStr id) ])).
Proof.
  unfold stored, JSON_stringify.
  change (jsonify (VObj [ ("conversationHistory", VArr (map turn_value ts));
                          ("currentPersonality", VStr id) ]))
    with (VObj [ ("conversationHistory", jsonify (VArr (map turn_value ts)));
                 ("currentPersonality", VStr id) ]).
  rewrite jsonify_turns. reflexivity.
Qed.

Lemma slice_last_map {A B} (f : A -> B) k l :
  slice_last k (map f l) = map f (slice_last k l).
Proof. unfold slice_last. rewrite length_map, skipn_map. reflexivity. Qed.

Lemma known_id_truthy id :
  In id known_ids -> or_else (VStr id) (VStr "default") = VStr id.
Proof.
  intro K. destruct (known_persona_string (VStr id)) as [x [[= <-] [_ E]]]; [|exact E].
  cbn [known_persona]. apply existsb_exists. exists id.
  split; [exact K | apply String.eqb_refl].
Qed.

(** Property X5.  One answered exchange from a history [h] leaves the
    last 20 entries of [h] followed by the user turn and the model turn:
    min(20, |h| + 2) entries, nothing being dropped when [h] has at most
    18.  The stored chat data is the new history with the persona, and
    persona and key are as before. *)
Theorem exchange_step id key h x w reply :
  key <> EmptyString -> ready id key h w ->
  trim (typed x) <> EmptyString ->
  callGeminiAPI_response (answer x) = Ok (VStr reply) ->
  exists h',
    fst (exchange_once x w) = Ok tt
    /\ conversationHistory (snd (exchange_once x w)) = VArr h'
    /\ h' = slice_last 20 (h ++ [ turn "user" (VStr (trim (typed x)));
                                  turn "model" (VStr reply) ])
    /\ List.length h' = Nat.min 20 (List.length h + 2)
    /\ ((List.length h <= 18)%nat ->
        h' = (h ++ [ turn "user" (VStr (trim (typed x)));
                     turn "model" (VStr reply) ])%list)
    /\ gemini_chat_data (snd (exchange_once x w)) = stored (VArr h') (VStr id)
    /\ currentPersonality (snd (exchange_once x w)) = VStr id
    /\ gemini_api_key (snd (exchange_once x w)) = Some key.
Proof.
  intros Hkey Hw Hm Hr.
  destruct (exchange_once_saved id key h x w reply Hkey Hw Hm Hr)
    as [w' [E [[R1 [R2 [R3 R4]]] [_ [S _]]]]].
  rewrite E. cbn [fst snd]. eexists. split; [reflexivity|].
  split; [exact R1|]. split; [reflexivity|]. split; [|split].
  - rewrite capped_length, length_app. cbn [List.length]. reflexivity.
  - intro L. apply slice_last_short. rewrite length_app. cbn [List.length].
    cbn. lia.
  - rewrite S, R1. auto.
Qed.

Lemma exchange_step_witness :
  exists h',
    fst (exchange_once hello with_key) = Ok tt
    /\ conversationHistory (snd (exchange_once hello with_key)) = VArr h'
    /\ h' = slice_last 20 ([] ++ [ turn "user" (VStr (trim (typed hello)));
                                   turn "model" (VStr "Hi there") ])
    /\ List.length h' = Nat.min 20 (List.length (@nil value) + 2)
    /\ ((List.length (@nil value) <= 18)%nat ->
        h' = ([] ++ [ turn "user" (VStr (trim (typed hello)));
                      turn "model" (VStr "Hi there") ])%list)
    /\ gemini_chat_data (snd (exchange_once hello with_key))
       = stored (VArr h') (VStr "default")
    /\ currentPersonality (snd (exchange_once hello with_key)) = VStr "default"
    /\ gemini_api_key (snd (exchange_once hello with_key)) = Some "secret".
Proof.
  apply (exchange_step "default" "secret" [] hello with_key "Hi there").
  - discriminate.
  - repeat split.
  - vm_compute. discriminate.
  - vm_compute; reflexivity.
Defined.

(** Property X6.  What an answered exchange stores is what the next
    load restores: loading in any world that holds the chat data stored
    by the exchange gives the history the exchange left, and the same
    persona. *)
Theorem exchange_survives_reload id key ts x w reply :
  In id known_ids ->
  key <> EmptyString -> ready id key (map turn_value ts) w ->
  trim (typed x) <> EmptyString ->
  callGeminiAPI_response (answer x) = Ok (VStr reply) ->
  forall w',
    gemini_chat_data w' = gemini_chat_data (snd (exchange_once x w)) ->
    conversationHistory (snd (loadSavedData w'))
    = conversationHistory (snd (exchange_once x w))
    /\ conversationHistory (snd (loadSavedData w'))
       = VArr (map turn_value
                 (slice_last 20 (ts ++ exchanged (trim (typed x)) reply)))
    /\ currentPersonality (snd (loadSavedData w')) = VStr id.
Proof.
  intros K Hkey Hw Hm Hr w' Hd.
  destruct (exchange_once_saved id key _ x w reply Hkey Hw Hm Hr)
    as [w1 [E [[R1 _] [_ [S _]]]]].
  rewrite E in *. cbn [snd] in *.
  assert (T : conversationHistory w1
              = VArr (map turn_value
                        (slice_last 20 (ts ++ exchanged (trim (typed x)) reply)))).
  { rewrite R1. unfold capped. rewrite <- slice_last_map, map_app. reflexivity. }
  rewrite S, T, stored_turns in Hd.
  destruct (loadSavedData_turns w' _ _ (VStr id) id Hd eq_refl eq_refl
              (known_id_truthy id K) (known_plain id K)) as [_ [H1 [H2 _]]].
  rewrite H1, H2, T. auto.
Qed.

Lemma exchange_survives_reload_witness :
  conversationHistory
    (snd (loadSavedData
            (initial None (gemini_chat_data (snd (exchange_once hello with_key))))))
  = conversationHistory (snd (exchange_once hello with_key)).
Proof.
  apply (exchange_survives_reload "default" "secret" [] hello with_key "Hi there").
  - vm_compute. auto.
  - discriminate.
  - repeat split.
  - vm_compute. discriminate.
  - vm_compute; reflexivity.
  - vm_compute; reflexivity.
Defined.

(** ** While a request is pending, and clearing the context *)

Lemma clearContext_eq w : clearContext w = (Ok tt, after_clearContext w).
Proof.
  unfold clearContext. step. step.
  unfold showWelcomeMessage. step.
  erewrite bind_ok by (apply (updateContextInfo_array _ []); reflexivity).
  unfold saveData. repeat step. reflexivity.
Qed.

Lemma saveApiKey_eq typed w :
  trim typed <> EmptyString ->
  saveApiKey typed w = (Ok tt, after_saveApiKey (trim typed) w).
Proof.
  intro H. unfold saveApiKey.
  destruct (String.eqb_spec (trim typed) EmptyString); [contradiction|].
  reflexivity.
Qed.

(** Property X7.  While a request is pending the busy flag is set, and
    a second [sendMessage] does nothing at all, whatever has been typed
    in the meantime. *)
Theorem pending_request_blocks_sending w key id h :
  trim (message_input w) <> EmptyString ->
  isLoading w = false ->
  gemini_api_key w = Some key -> key <> EmptyString ->
  currentPersonality w = VStr id ->
  conversationHistory w = VArr h ->
  isLoading (snd (sendMessage_begin w)) = true
  /\ forall r typed,
       sendMessage r (with_message_input typed (snd (sendMessage_begin w)))
       = (Ok tt, with_message_input typed (snd (sendMessage_begin w))).
Proof.
  intros Hm Hl Hk Hne Hp Hh.
  rewrite (sendMessage_begin_sends w key id h Hm Hl Hk Hne Hp Hh). cbn [snd].
  split; [reflexivity|]. intros r typed.
  apply sendMessage_blocked. right. reflexivity.
Qed.

Lemma pending_request_blocks_sending_witness :
  isLoading (snd (sendMessage_begin hello_typed)) = true.
Proof.
  apply (pending_request_blocks_sending hello_typed "secret" "default" []).
  - vm_compute. discriminate.
  - vm_compute; reflexivity.
  - vm_compute; reflexivity.
  - discriminate.
  - vm_compute; reflexivity.
  - vm_compute; reflexivity.
Defined.

(** Property X8.  Saving a key while a request is pending (here under
    a known persona) clears the busy flag ([saveApiKey] calls
    [enableInput]): a message sent then goes out as a second request,
    under the new key, before the first has been answered. *)
Theorem saving_a_key_unblocks_sending w key id h apiKey typed :
  trim (message_input w) <> EmptyString ->
  isLoading w = false ->
  gemini_api_key w = Some key -> key <> EmptyString ->
  currentPersonality w = VStr id -> In id known_ids ->
  conversationHistory w = VArr h ->
  trim apiKey <> EmptyString ->
  trim typed <> EmptyString ->
  fst (sendMessage_begin
         (with_message_input typed
            (snd (saveApiKey apiKey (snd (sendMessage_begin w))))))
  = Ok (Some (trim typed))
  /\ fetches
       (log (snd (sendMessage_begin
                    (with_message_input typed
                       (snd (saveApiKey apiKey (snd (sendMessage_begin w))))))))
     = (fetches (log w)
          ++ [ Fetch (CONFIG.GEMINI_API_URL ++ "?key=" ++ key)
                     (requestData (assembled id h (trim (message_input w))));
               Fetch (CONFIG.GEMINI_API_URL ++ "?key=" ++ trim apiKey)
                     (requestData (assembled id h (trim typed))) ])%list.
Proof.
  intros Hm Hl Hk Hne Hp _ Hh Ha Ht.
  rewrite (sendMessage_begin_sends w key id h Hm Hl Hk Hne Hp Hh). cbn [snd].
  rewrite (saveApiKey_eq apiKey _ Ha). cbn [snd].
  rewrite (sendMessage_begin_sends _ (trim apiKey) id h); try assumption;
    try (unfold after_saveApiKey; reflexivity).
  cbn [fst snd]. split; [reflexivity|].
  unfold request_url, after_saveApiKey. fields. rewrite Hk.
  unfold fetches. rewrite !filter_app. cbn [filter is_fetch app].
  rewrite !app_nil_r, <- app_assoc. reflexivity.
Qed.

Lemma saving_a_key_unblocks_sending_witness :
  fst (sendMessage_begin
         (with_message_input "again"
            (snd (saveApiKey "other" (snd (sendMessage_begin hello_typed))))))
  = Ok (Some (trim "again")).
Proof.
  apply (saving_a_key_unblocks_sending hello_typed "secret" "default" []
           "other" "again").
  - vm_compute. discriminate.
  - vm_compute; reflexivity.
  - vm_compute; reflexivity.
  - discriminate.
  - vm_compute; reflexivity.
  - vm_compute. auto.
  - vm_compute; reflexivity.
  - vm_compute. discriminate.
  - vm_compute. discriminate.
Defined.

(** Property X9.  When the context is cleared while a request is
    pending (here under a known persona), the answer is appended to the
    cleared history: the history ends as the two turns of that exchange
    alone, though the request carried the history from before the
    clearing. *)
Theorem clearing_while_pending w key id h r reply :
  trim (message_input w) <> EmptyString ->
  isLoading w = false ->
  gemini_api_key w = Some key -> key <> EmptyString ->
  currentPersonality w = VStr id -> In id known_ids ->
  conversationHistory w = VArr h ->
  callGeminiAPI_response r = Ok (VStr reply) ->
  conversationHistory
    (snd (sendMessage_resume (trim (message_input w)) r
            (snd (clearContext (snd (sendMessage_begin w))))))
  = VArr [ turn "user" (VStr (trim (message_input w)));
           turn "model" (VStr reply) ]
  /\ fetches (log (snd (sendMessage_begin w)))
     = (fetches (log w)
          ++ [ Fetch (request_url w)
                     (requestData (assembled id h (trim (message_input w)))) ])%list.
Proof.
  intros Hm Hl Hk Hne Hp _ Hh Hr.
  rewrite (sendMessage_begin_sends w key id h Hm Hl Hk Hne Hp Hh). cbn [snd].
  rewrite clearContext_eq. cbn [snd].
  split.
  - destruct (sendMessage_resume_saved
                (after_clearContext (pending_world id h w)) []
                (trim (message_input w)) r reply eq_refl Hr) as [w' [E [H1 _]]].
    unfold pending_world in E. rewrite E. cbn [snd]. rewrite H1. reflexivity.
  - fields. unfold fetches. rewrite !filter_app. cbn [filter is_fetch].
    rewrite !app_nil_r. reflexivity.
Qed.

Lemma clearing_while_pending_witness :
  conversationHistory
    (snd (sendMessage_resume (trim (message_input hello_typed))
            (Responded true (success_body "Hi there"))
            (snd (clearContext (snd (sendMessage_begin hello_typed))))))
  = VArr [ turn "user" (VStr (trim (message_input hello_typed)));
           turn "model" (VStr "Hi there") ].
Proof.
  apply (clearing_while_pending hello_typed "secret" "default" []
           (Responded true (success_body "Hi there")) "Hi there").
  - vm_compute. discriminate.
  - vm_compute; reflexivity.
  - vm_compute; reflexivity.
  - discriminate.
  - vm_compute; reflexivity.
  - vm_compute. auto.
  - vm_compute; reflexivity.
  - vm_compute; reflexivity.
Defined.

(** Property X10.  [clearContext] empties the history and stores the
    empty history with the current persona; persona, key, busy flag and
    message box are unchanged and no request is made.  Loading the
    stored item afterwards gives the empty history and, for a known
    persona, that persona. *)
Theorem clearContext_resets_history w :
  clearContext w = (Ok tt, after_clearContext w)
  /\ conversationHistory (after_clearContext w) = VArr []
  /\ currentPersonality (after_clearContext w) = currentPersonality w
  /\ gemini_api_key (after_clearContext w) = gemini_api_key w
  /\ isLoading (after_clearContext w) = isLoading w
  /\ message_input (after_clearContext w) = message_input w
  /\ gemini_chat_data (after_clearContext w) = stored (VArr []) (currentPersonality w)
  /\ fetches (log (after_clearContext w)) = fetches (log w)
  /\ (forall id w',
        currentPersonality w = VStr id -> In id known_ids ->
        gemini_chat_data w' = gemini_chat_data (after_clearContext w) ->
        conversationHistory (snd (loadSavedData w')) = VArr []
        /\ currentPersonality (snd (loadSavedData w')) = VStr id).
Proof.
  split; [apply clearContext_eq|].
  do 6 (split; [reflexivity|]). split.
  - unfold after_clearContext. fields. unfold fetches. rewrite !filter_app.
    cbn [filter is_fetch]. rewrite !app_nil_r. reflexivity.
  - intros id w' Hp K Hd. unfold after_clearContext in Hd.
    cbn [gemini_chat_data with_event with_gemini_chat_data] in Hd.
    rewrite Hp in Hd.
    change (stored (VArr []) (VStr id))
      with (stored (VArr (map turn_value [])) (VStr id)) in Hd.
    rewrite stored_turns in Hd.
    destruct (loadSavedData_turns w' _ [] (VStr id) id Hd eq_refl eq_refl
                (known_id_truthy id K) (known_plain id K)) as [_ [H1 [H2 _]]].
    auto.
Qed.

Lemma clearContext_resets_history_witness :
  conversationHistory
    (snd (loadSavedData
            (initial None (gemini_chat_data (after_clearContext three_turns_in_memory)))))
  = VArr []
  /\ currentPersonality
       (snd (loadSavedData
               (initial None
                  (gemini_chat_data (after_clearContext three_turns_in_memory)))))
     = VStr "teacher".
Proof.
  apply (proj2 (proj2 (proj2 (proj2 (proj2 (proj2 (proj2 (proj2
           (clearContext_resets_history three_turns_in_memory))))))))
           "teacher").
  - vm_compute; reflexivity.
  - vm_compute. auto.
  - vm_compute; reflexivity.
Defined.

(** ** A history that cannot be spread *)

Lemma callGeminiAPI_request_not_iterable w id e m :
  currentPersonality w = VStr id ->
  spread (conversationHistory w) = Throw e ->
  callGeminiAPI_request m w = (Throw e, w).
Proof.
  intros Hp Hs. unfold callGeminiAPI_request, getApiKey.
  rewrite bind_assoc, bind_get. step. step.
  unfold build_contents. rewrite Hp, Hs. reflexivity.
Qed.

(** Property X11.  When the history cannot be spread into the
    message list (it is neither an array nor a string, as after loading
    a stored item whose history is a number), a send makes no request:
    the user message and the error are shown, and the history stays as
    it is, so that every later send ends the same way.  After
    [clearContext] a send goes out again. *)
Theorem history_that_cannot_be_spread_blocks_sending w key id e :
  trim (message_input w) <> EmptyString ->
  isLoading w = false ->
  gemini_api_key w = Some key -> key <> EmptyString ->
  currentPersonality w = VStr id ->
  spread (conversationHistory w) = Throw e ->
  sendMessage_begin w
  = (Ok None,
     after_failure e
       (with_event (MessageAdded "user" (trim (message_input w)))
          (with_isLoading true (with_event (InputDisabled true) w))))
  /\ fetches (log (snd (sendMessage_begin w))) = fetches (log w)
  /\ conversationHistory (snd (sendMessage_begin w)) = conversationHistory w
  /\ messages (log (snd (sendMessage_begin w)))
     = (messages (log w)
          ++ [ MessageAdded "user" (trim (message_input w));
               MessageAdded "bot" ("Ошибка: " ++ message e) ])%list
  /\ (forall typed,
        trim typed <> EmptyString ->
        fst (sendMessage_begin
               (with_message_input typed
                  (snd (clearContext (snd (sendMessage_begin w))))))
        = Ok (Some (trim typed))).
Proof.
  intros Hm Hl Hk Hne Hp Hs.
  assert (E : sendMessage_begin w
              = (Ok None,
                 after_failure e
                   (with_event (MessageAdded "user" (trim (message_input w)))
                      (with_isLoading true (with_event (InputDisabled true) w))))).
  { unfold sendMessage_begin. rewrite bind_get.
    destruct (String.eqb_spec (trim (message_input w)) EmptyString); [contradiction|].
    rewrite Hl. cbn [orb].
    erewrite bind_ok by (eapply hasApiKey_present; eassumption).
    cbn [negb]. unfold disableInput, addMessage. repeat step.
    cbn [dom_text nullish ToString]. repeat step.
    erewrite bind_settled
      by (apply (callGeminiAPI_request_not_iterable _ id e); fields; assumption).
    cbv beta iota.
    erewrite bind_ok by apply sendMessage_catch_eq.
    erewrite bind_ok by apply sendMessage_finally_eq.
    reflexivity. }
  rewrite E. cbn [fst snd]. split; [reflexivity|].
  unfold after_failure. fields. split; [|split; [reflexivity|split]].
  - unfold fetches. rewrite !filter_app. cbn [filter is_fetch].
    rewrite !app_nil_r. reflexivity.
  - unfold messages. rewrite !filter_app. cbn [filter is_message app].
    rewrite !app_nil_r, <- app_assoc. reflexivity.
  - intros typed Ht. rewrite clearContext_eq. cbn [snd].
    rewrite (sendMessage_begin_sends _ key id []); try assumption;
      try (unfold after_clearContext; fields; assumption);
      reflexivity.
Qed.

Lemma history_that_cannot_be_spread_blocks_sending_witness :
  fetches (log (snd (sendMessage_begin number_history)))
  = fetches (log number_history).
Proof.
  apply (history_that_cannot_be_spread_blocks_sending number_history "secret"
           "default" not_iterable).
  - vm_compute. discriminate.
  - vm_compute; reflexivity.
  - vm_compute; reflexivity.
  - discriminate.
  - vm_compute; reflexivity.
  - vm_compute; reflexivity.
Defined.

(** ** What the operations on history and persona leave alone *)

Section Untouched.

Variable I : world -> Prop.
Hypothesis U : untouched I.

Lemma untouched_emit e : is_fetch e = false -> stable I (emit e).
Proof. intros F w H. apply (proj2 (proj2 (proj2 U)) e w F H). Qed.

Lemma untouched_set_conversationHistory h : stable I (set_conversationHistory h).
Proof. intros w H. apply (proj1 U h w H). Qed.

Lemma untouched_set_currentPersonality p : stable I (set_currentPersonality p).
Proof. intros w H. apply (proj1 (proj2 U) p w H). Qed.

Lemma untouched_set_gemini_chat_data d : stable I (set_gemini_chat_data d).
Proof. intros w H. apply (proj1 (proj2 (proj2 U)) d w H). Qed.

Ltac untouched_step :=
  match goal with
  | |- stable _ (bind _ _) => apply stable_bind; [ | intro ]
  | |- stable _ (ret _) => apply stable_ret
  | |- stable _ (lift _) => apply stable_lift
  | |- stable _ get => apply stable_get
  | |- stable _ (try_catch _ _) => apply stable_try_catch; [ | intro ]
  | |- stable _ (if _ then _ else _) => apply stable_if
  | |- stable _ (match ?x with _ => _ end) => destruct x
  | |- stable _ (emit _) => apply untouched_emit; reflexivity
  | |- stable _ (set_conversationHistory _) => apply untouched_set_conversationHistory
  | |- stable _ (set_currentPersonality _) => apply untouched_set_currentPersonality
  | |- stable _ (set_gemini_chat_data _) => apply untouched_set_gemini_chat_data
  | |- stable _ _ =>
      progress unfold showWelcomeMessage, hideWelcomeMessage, showNotification,
        saveData, addMessage, updateContextInfo, changePersonality, clearContext,
        replay_pair
  end.

Lemma untouched_updateContextInfo : stable I updateContextInfo.
Proof. repeat untouched_step. Qed.

Lemma untouched_changePersonality p : stable I (changePersonality p).
Proof. repeat untouched_step. Qed.

Lemma untouched_clearContext : stable I clearContext.
Proof. repeat untouched_step. Qed.

Lemma untouched_replay fuel : forall i, stable I (replay fuel i).
Proof.
  induction fuel as [|fuel IH]; intro i; cbn [replay]; repeat untouched_step.
  apply IH.
Qed.

Lemma untouched_loadSavedData : stable I loadSavedData.
Proof.
  unfold loadSavedData. repeat untouched_step.
  all: try apply untouched_replay.
Qed.

End Untouched.

Lemma untouched_key k : untouched (fun w => gemini_api_key w = k).
Proof. repeat split; intros; assumption. Qed.

Lemma untouched_isLoading b : untouched (fun w => isLoading w = b).
Proof. repeat split; intros; assumption. Qed.

Lemma untouched_message_input s : untouched (fun w => message_input w = s).
Proof. repeat split; intros; assumption. Qed.

Lemma untouched_fetches l : untouched (fun w => fetches (log w) = l).
Proof.
  repeat split; try (intros; assumption).
  intros e w F H. cbn [log with_event]. unfold fetches in *.
  rewrite filter_app. cbn [filter]. rewrite F, app_nil_r. exact H.
Qed.

Lemma untouched_upkeep I o : untouched I -> stable I (run_upkeep o).
Proof.
  intro U. destruct o; cbn [run_upkeep].
  - apply untouched_loadSavedData; exact U.
  - apply untouched_changePersonality; exact U.
  - apply untouched_clearContext; exact U.
  - apply untouched_updateContextInfo; exact U.
Qed.

(** Property X12.  [loadSavedData], [changePersonality],
    [clearContext] and [updateContextInfo] leave the key, the busy flag
    and the message box unchanged and make no request, on every world
    and however they end. *)
Theorem upkeep_leaves_key_flag_box_and_network o w :
  gemini_api_key (snd (run_upkeep o w)) = gemini_api_key w
  /\ isLoading (snd (run_upkeep o w)) = isLoading w
  /\ message_input (snd (run_upkeep o w)) = message_input w
  /\ fetches (log (snd (run_upkeep o w))) = fetches (log w).
Proof.
  split; [|split; [|split]].
  - apply (untouched_upkeep _ o (untouched_key (gemini_api_key w)) w eq_refl).
  - apply (untouched_upkeep _ o (untouched_isLoading (isLoading w)) w eq_refl).
  - apply (untouched_upkeep _ o (untouched_message_input (message_input w)) w eq_refl).
  - apply (untouched_upkeep _ o (untouched_fetches (fetches (log w))) w eq_refl).
Qed.

(** Property X13.  For a stored item that parses to anything but
    [null], [loadSavedData] makes the history the stored
    [conversationHistory] when that is truthy and the empty list
    otherwise, and the persona the stored [currentPersonality] when that
    is truthy and ["default"] otherwise, whatever their shape; it does
    not raise. *)
Theorem load_takes_the_stored_fields_unchecked w data :
  gemini_chat_data w = Some (JsonText data) ->
  nullish data = false ->
  exists h p,
    get_prop data p_conversationHistory = Ok h
    /\ get_prop data p_currentPersonality = Ok p
    /\ conversationHistory (snd (loadSavedData w)) = or_else h (VArr [])
    /\ currentPersonality (snd (loadSavedData w)) = or_else p (VStr "default")
    /\ fst (loadSavedData w) = Ok tt.
Proof.
  intros Hd N.
  destruct (get_prop_total data p_conversationHistory N) as [h Hh].
  destruct (get_prop_total data p_currentPersonality N) as [p Hp].
  exists h, p. split; [exact Hh|]. split; [exact Hp|].
  destruct (loadSavedData_object w data h p Hd Hh Hp) as [E1 E2].
  split; [exact E1|]. split; [exact E2|]. apply loadSavedData_returns.
Qed.

Lemma load_takes_the_stored_fields_unchecked_witness :
  exists h p,
    get_prop (VObj [ ("conversationHistory", VArr [ VNum 1; VNum 2 ]) ])
             p_conversationHistory = Ok h
    /\ get_prop (VObj [ ("conversationHistory", VArr [ VNum 1; VNum 2 ]) ])
                p_currentPersonality = Ok p
    /\ conversationHistory
         (snd (loadSavedData
                 (initial None
                    (Some (JsonText
                             (VObj [ ("conversationHistory",
                                      VArr [ VNum 1; VNum 2 ]) ]))))))
       = or_else h (VArr [])
    /\ currentPersonality
         (snd (loadSavedData
                 (initial None
                    (Some (JsonText
                             (VObj [ ("conversationHistory",
                                      VArr [ VNum 1; VNum 2 ]) ]))))))
       = or_else p (VStr "default")
    /\ fst (loadSavedData
              (initial None
                 (Some (JsonText
                          (VObj [ ("conversationHistory",
                                   VArr [ VNum 1; VNum 2 ]) ])))))
       = Ok tt.
Proof.
  apply (load_takes_the_stored_fields_unchecked
           (initial None
              (Some (JsonText (VObj [ ("conversationHistory",
                                       VArr [ VNum 1; VNum 2 ]) ]))))).
  - vm_compute; reflexivity.
  - vm_compute; reflexivity.
Defined.

(** ** The gauge and the keyboard *)

Lemma percentage_of_length n :
  percentage (Some (Z.of_nat n)) = Some (Z.min 100 (5 * Z.of_nat n)).
Proof.
  unfold percentage, CONFIG.MAX_HISTORY_LENGTH. cbn [option_map]. do 2 f_equal.
  replace (Z.of_nat n * 100)%Z with (5 * Z.of_nat n * 20)%Z by lia.
  apply Z.div_mul. discriminate.
Qed.

(** Property X14.  For a history of [n] entries [updateContextInfo]
    writes the count [n] and the percentage label min(100, 5n): 5n up to
    20 entries, and 100 from there on.  The label is the rounded
    percentage; the width of the bar, which the code sets from the
    percentage before rounding, is not part of the model. *)
Theorem gauge_of_an_array w h :
  conversationHistory w = VArr h ->
  updateContextInfo w
  = (Ok tt,
     with_event (ContextInfo (string_of_Z (Z.of_nat (List.length h)))
                             (Some (Z.min 100 (5 * Z.of_nat (List.length h))))) w)
  /\ (Z.min 100 (5 * Z.of_nat (List.length h)) <= 100)%Z
  /\ ((20 <= List.length h)%nat ->
      Z.min 100 (5 * Z.of_nat (List.length h)) = 100%Z)
  /\ ((List.length h <= 20)%nat ->
      Z.min 100 (5 * Z.of_nat (List.length h)) = (5 * Z.of_nat (List.length h))%Z).
Proof.
  intro Hh. rewrite (updateContextInfo_array w h Hh), percentage_of_length.
  repeat split; lia.
Qed.

Lemma gauge_of_an_array_witness :
  updateContextInfo three_turns_in_memory
  = (Ok tt,
     with_event
       (ContextInfo
          (string_of_Z (Z.of_nat (List.length (map turn_value three_turns))))
          (Some (Z.min 100 (5 * Z.of_nat (List.length (map turn_value three_turns))))))
       three_turns_in_memory).
Proof.
  apply (gauge_of_an_array three_turns_in_memory (map turn_value three_turns)).
  vm_compute; reflexivity.
Defined.

(** Property X15.  [handleKeyPress] sends exactly on Enter without
    Shift, and then suppresses the default action of the key; any other
    key, and Enter with Shift, leave the world as it is.  In both cases
    the text area is given the height min(scrollHeight, 128) in
    pixels. *)
Theorem only_plain_enter_sends ev w :
  (key ev = "Enter" -> shiftKey ev = false ->
     exists pending w',
       sendMessage_begin w = (Ok pending, w')
       /\ handleKeyPress ev w
          = (Ok ({| defaultPrevented := true;
                    height := string_of_Z (Z.min (scrollHeight ev) 128) ++ "px" |},
                 pending), w'))
  /\ (key ev <> "Enter" \/ shiftKey ev = true ->
        handleKeyPress ev w
        = (Ok ({| defaultPrevented := false;
                  height := string_of_Z (Z.min (scrollHeight ev) 128) ++ "px" |},
               None), w)).
Proof.
  unfold handleKeyPress. split.
  - intros K S. rewrite K, S. cbn [String.eqb Ascii.eqb Bool.eqb andb negb].
    destruct (sendMessage_begin_returns w) as [pending [w' E]].
    exists pending, w'. split; [exact E|].
    rewrite bind_assoc. erewrite bind_settled by exact E. reflexivity.
  - intros H.
    assert (F : (String.eqb (key ev) "Enter" && negb (shiftKey ev)) = false).
    { destruct H as [H|H].
      - destruct (String.eqb_spec (key ev) "Enter"); [contradiction|reflexivity].
      - rewrite H. apply andb_false_r. }
    rewrite F. reflexivity.
Qed.

Lemma only_plain_enter_sends_witness :
  exists pending w',
    sendMessage_begin hello_typed = (Ok pending, w')
    /\ handleKeyPress plain_enter hello_typed
       = (Ok ({| defaultPrevented := true;
                 height := string_of_Z (Z.min (scrollHeight plain_enter) 128) ++ "px" |},
              pending), w').
Proof.
  apply (proj1 (only_plain_enter_sends plain_enter hello_typed)); (vm_compute; reflexivity).
Defined.

(** ** Loading again *)

Lemma changePersonality_eq id w :
  plain_id id = true ->
  exists shown,
    changePersonality (VStr id) w = (Ok tt, after_changePersonality id shown w).
Proof.
  intro P. destruct (changePersonality_string id w P) as [shown E].
  exists shown. exact E.
Qed.

Lemma loadSavedData_restores w data ts p id :
  gemini_chat_data w = Some (JsonText data) ->
  get_prop data p_conversationHistory = Ok (VArr (map turn_value ts)) ->
  get_prop data p_currentPersonality = Ok p ->
  or_else p (VStr "default") = VStr id ->
  plain_id id = true ->
  exists shown, loadSavedData w = (Ok tt, restored id shown ts w).
Proof.
  intros Hd Hh Hp Hid Hplain.
  destruct (changePersonality_eq id
              (with_currentPersonality (VStr id)
                 (with_conversationHistory (VArr (map turn_value ts)) w)) Hplain)
    as [shown Hc].
  exists shown.
  unfold loadSavedData. step. rewrite Hd. cbn [text_truthy].
  apply try_catch_ok.
  cbn [JSON_parse]. step. rewrite Hh. repeat step.
  cbn [or_else truthy]. rewrite Hp. step. rewrite Hid. step. step.
  fields. erewrite bind_ok by exact Hc.
  step. unfold after_changePersonality at 1. fields. cbn [get_prop]. step.
  replace 0%Z with (Z.of_nat 0) by reflexivity.
  rewrite greater_than_length. step. unfold restored.
  destruct ts as [|t ts]; [reflexivity|].
  cbn [map List.length Nat.ltb Nat.leb].
  unfold hideWelcomeMessage. step.
  unfold replay_fuel. cbn [ToNumber]. rewrite Nat2Z.id.
  apply (replay_turns _ [] (t :: ts)).
  - reflexivity.
  - cbn [List.length]. rewrite length_map. lia.
Qed.

Lemma with_events_fields es : forall w,
  gemini_chat_data (with_events es w) = gemini_chat_data w
  /\ gemini_api_key (with_events es w) = gemini_api_key w
  /\ isLoading (with_events es w) = isLoading w
  /\ message_input (with_events es w) = message_input w.
Proof.
  induction es as [|e es IH]; intro w; [repeat split|].
  change (with_events (e :: es) w) with (with_events es (with_event e w)).
  destruct (IH (with_event e w)) as [-> [-> [-> ->]]]. repeat split.
Qed.

Lemma restored_fields id shown ts w :
  conversationHistory (restored id shown ts w) = VArr (map turn_value ts)
  /\ currentPersonality (restored id shown ts w) = VStr id
  /\ gemini_chat_data (restored id shown ts w)
     = stored (VArr (map turn_value ts)) (VStr id)
  /\ gemini_api_key (restored id shown ts w) = gemini_api_key w
  /\ isLoading (restored id shown ts w) = isLoading w
  /\ message_input (restored id shown ts w) = message_input w.
Proof.
  unfold restored. destruct ts as [|t ts]; [repeat split|].
  match goal with |- context [with_events ?es ?w0] =>
    destruct (with_events_keeps es w0) as [-> ->];
    destruct (with_events_fields es w0) as [-> [-> [-> ->]]]
  end.
  repeat split.
Qed.

(** Property X16.  Loading saves what it loaded: for a stored history
    of turns and a stored persona that is a known id or falsy, the stored
    chat data after [loadSavedData] is the loaded history and persona,
    and a second load changes none of history, persona and stored chat
    data. *)
Theorem loading_twice_is_loading_once w data ts p :
  gemini_chat_data w = Some (JsonText data) ->
  get_prop data p_conversationHistory = Ok (VArr (map turn_value ts)) ->
  get_prop data p_currentPersonality = Ok p ->
  known_persona p = true \/ truthy p = false ->
  exists id,
    or_else p (VStr "default") = VStr id
    /\ gemini_chat_data (snd (loadSavedData w))
       = stored (VArr (map turn_value ts)) (VStr id)
    /\ conversationHistory (snd (loadSavedData (snd (loadSavedData w))))
       = conversationHistory (snd (loadSavedData w))
    /\ currentPersonality (snd (loadSavedData (snd (loadSavedData w))))
       = currentPersonality (snd (loadSavedData w))
    /\ gemini_chat_data (snd (loadSavedData (snd (loadSavedData w))))
       = gemini_chat_data (snd (loadSavedData w)).
Proof.
  intros Hd Hh Hp Hs.
  destruct (persona_or_default p Hs) as [id [Hid Hin]].
  pose proof (known_id_truthy id Hin) as Hid2.
  pose proof (known_plain id Hin) as Hplain.
  exists id. split; [exact Hid|].
  destruct (loadSavedData_restores w data ts p id Hd Hh Hp Hid Hplain)
    as [shown E].
  rewrite E. cbn [snd].
  destruct (restored_fields id shown ts w) as [F1 [F2 [F3 _]]].
  split; [exact F3|].
  pose proof F3 as F3'. rewrite stored_turns in F3'.
  destruct (loadSavedData_restores (restored id shown ts w) _ ts (VStr id) id
              F3' eq_refl eq_refl Hid2 Hplain) as [shown2 E2].
  rewrite E2. cbn [snd].
  destruct (restored_fields id shown2 ts (restored id shown ts w)) as [G1 [G2 [G3 _]]].
  rewrite F1, F2, F3, G1, G2, G3. auto.
Qed.

Lemma loading_twice_is_loading_once_witness :
  exists id,
    or_else (VStr "teacher") (VStr "default") = VStr id
    /\ gemini_chat_data
         (snd (loadSavedData (initial None (Some (JsonText three_turn_snapshot)))))
       = stored (VArr (map turn_value three_turns)) (VStr id)
    /\ conversationHistory
         (snd (loadSavedData
                 (snd (loadSavedData
                         (initial None (Some (JsonText three_turn_snapshot)))))))
       = conversationHistory
           (snd (loadSavedData (initial None (Some (JsonText three_turn_snapshot)))))
    /\ currentPersonality
         (snd (loadSavedData
                 (snd (loadSavedData
                         (initial None (Some (JsonText three_turn_snapshot)))))))
       = currentPersonality
           (snd (loadSavedData (initial None (Some (JsonText three_turn_snapshot)))))
    /\ gemini_chat_data
         (snd (loadSavedData
                 (snd (loadSavedData
                         (initial None (Some (JsonText three_turn_snapshot)))))))
       = gemini_chat_data
           (snd (loadSavedData (initial None (Some (JsonText three_turn_snapshot))))).
Proof.
  apply (loading_twice_is_loading_once
           (initial None (Some (JsonText three_turn_snapshot)))
           three_turn_snapshot three_turns (VStr "teacher")).
  - vm_compute; reflexivity.
  - vm_compute; reflexivity.
  - vm_compute; reflexivity.
  - left. vm_compute; reflexivity.
Defined.

(** ** Start-up, personas and the stored history *)

Lemma onload_welcomes w :
  onload w = (loadSavedData ;; updateContextInfo) (welcomed w).
Proof.
  unfold onload, hasApiKey, getApiKey, welcomed. repeat step.
  destruct (gemini_api_key w) as [[|c k]|]; reflexivity.
Qed.

Lemma welcomed_fields w :
  conversationHistory (welcomed w) = conversationHistory w
  /\ currentPersonality (welcomed w) = currentPersonality w
  /\ gemini_chat_data (welcomed w) = gemini_chat_data w
  /\ gemini_api_key (welcomed w) = gemini_api_key w
  /\ messages (log (welcomed w)) = messages (log w)
  /\ (isLoading w = false -> isLoading (welcomed w) = false).
Proof.
  unfold welcomed.
  destruct (gemini_api_key w) as [[|c k]|] eqn:E; fields; rewrite ?E;
    unfold messages; rewrite ?filter_app; cbn [filter is_message];
    rewrite ?app_nil_r; repeat split; auto.
Qed.

(** Property X17.  Start-up with a stored history of turns and a
    stored persona that is a known id or falsy: [onload] does not raise,
    the history is the stored turns and the persona the stored one (or
    ["default"]), the busy flag is clear, the key is as
    stored, the messages put on the page are the stored turns in whole
    pairs, and the last thing shown is the gauge for the number of
    turns. *)
Theorem onload_restores_the_stored_turns key data ts p :
  get_prop data p_conversationHistory = Ok (VArr (map turn_value ts)) ->
  get_prop data p_currentPersonality = Ok p ->
  known_persona p = true \/ truthy p = false ->
  fst (onload (initial key (Some (JsonText data)))) = Ok tt
  /\ conversationHistory (snd (onload (initial key (Some (JsonText data)))))
     = VArr (map turn_value ts)
  /\ currentPersonality (snd (onload (initial key (Some (JsonText data)))))
     = or_else p (VStr "default")
  /\ isLoading (snd (onload (initial key (Some (JsonText data))))) = false
  /\ gemini_api_key (snd (onload (initial key (Some (JsonText data))))) = key
  /\ messages (log (snd (onload (initial key (Some (JsonText data))))))
     = rendering ts
  /\ last (log (snd (onload (initial key (Some (JsonText data)))))) ChatCleared
     = gauge (List.length ts).
Proof.
  intros Hh Hp Hs.
  destruct (persona_or_default p Hs) as [id [Hid Hin]].
  pose proof (known_plain id Hin) as Hplain.
  rewrite Hid. rewrite onload_welcomes.
  set (w0 := initial key (Some (JsonText data))).
  destruct (welcomed_fields w0) as [_ [_ [W3 [W4 [W5 W6]]]]].
  destruct (loadSavedData_restores (welcomed w0) data ts p id W3 Hh Hp Hid Hplain)
    as [shown E].
  destruct (loadSavedData_turns (welcomed w0) data ts p id W3 Hh Hp Hid Hplain)
    as [_ [_ [_ L]]].
  rewrite E in L. cbn [snd] in L.
  destruct (restored_fields id shown ts (welcomed w0)) as [F1 [F2 [_ [F4 [F5 _]]]]].
  erewrite bind_ok by exact E.
  rewrite (updateContextInfo_array _ _ F1). cbn [fst snd]. fields.
  rewrite F1, F2, F4, F5, W4, (W6 eq_refl).
  split; [reflexivity|]. split; [reflexivity|]. split; [reflexivity|].
  split; [reflexivity|]. split; [reflexivity|]. split.
  - unfold messages in *. rewrite filter_app, L, W5. cbn. apply app_nil_r.
  - rewrite last_last, length_map. reflexivity.
Qed.

Lemma onload_restores_the_stored_turns_witness :
  conversationHistory
    (snd (onload (initial (Some "secret") (Some (JsonText three_turn_snapshot)))))
  = VArr (map turn_value three_turns).
Proof.
  apply (onload_restores_the_stored_turns (Some "secret") three_turn_snapshot
           three_turns (VStr "teacher")).
  - vm_compute; reflexivity.
  - vm_compute; reflexivity.
  - left. vm_compute; reflexivity.
Defined.



(** Property X19.  Loading does not cut the history: a stored history
    of turns of any length is restored whole, and is cut to the last 20 entries
    by the next answered exchange only. *)
Theorem stored_history_is_cut_at_the_next_exchange w data ts p key x reply :
  gemini_chat_data w = Some (JsonText data) ->
  get_prop data p_conversationHistory = Ok (VArr (map turn_value ts)) ->
  get_prop data p_currentPersonality = Ok p ->
  known_persona p = true \/ truthy p = false ->
  isLoading w = false ->
  gemini_api_key w = Some key -> key <> EmptyString ->
  trim (typed x) <> EmptyString ->
  callGeminiAPI_response (answer x) = Ok (VStr reply) ->
  conversationHistory (snd (loadSavedData w)) = VArr (map turn_value ts)
  /\ List.length (map turn_value ts) = List.length ts
  /\ conversationHistory (snd (exchange_once x (snd (loadSavedData w))))
     = VArr (map turn_value
               (slice_last 20 (ts ++ exchanged (trim (typed x)) reply)))
  /\ List.length (slice_last 20 (ts ++ exchanged (trim (typed x)) reply))
     = Nat.min 20 (List.length ts + 2).
Proof.
  intros Hd Hh Hp Hs Hl Hk Hkey Hm Hr.
  destruct (persona_or_default p Hs) as [id [Hid Hin]].
  destruct (loadSavedData_restores w data ts p id Hd Hh Hp Hid (known_plain id Hin))
    as [shown E].
  rewrite E. cbn [snd].
  destruct (restored_fields id shown ts w) as [F1 [F2 [_ [F4 [F5 _]]]]].
  split; [exact F1|]. split; [apply length_map|].
  assert (R : ready id key (map turn_value ts) (restored id shown ts w)).
  { unfold ready. rewrite F1, F2, F4, F5. auto. }
  destruct (exchange_once_saved id key _ x _ reply Hkey R Hm Hr)
    as [w1 [E1 [[R1 _] _]]].
  rewrite E1. cbn [snd]. split.
  - rewrite R1. unfold capped. rewrite <- slice_last_map, map_app. reflexivity.
  - rewrite slice_last_length, length_app. reflexivity.
Qed.

Lemma stored_history_is_cut_at_the_next_exchange_witness :
  conversationHistory
    (snd (loadSavedData
            (initial (Some "secret") (Some (JsonText thirty_turn_snapshot)))))
  = VArr (map turn_value thirty_turns)
  /\ List.length (map turn_value thirty_turns) = List.length thirty_turns
  /\ conversationHistory
       (snd (exchange_once hello
               (snd (loadSavedData
                       (initial (Some "secret")
                          (Some (JsonText thirty_turn_snapshot)))))))
     = VArr (map turn_value
               (slice_last 20
                  (thirty_turns ++ exchanged (trim (typed hello)) "Hi there")))
  /\ List.length
       (slice_last 20 (thirty_turns ++ exchanged (trim (typed hello)) "Hi there"))
     = Nat.min 20 (List.length thirty_turns + 2).
Proof.
  apply (stored_history_is_cut_at_the_next_exchange
           (initial (Some "secret") (Some (JsonText thirty_turn_snapshot)))
           thirty_turn_snapshot thirty_turns VUndefined "secret"
           hello "Hi there").
  - vm_compute; reflexivity.
  - vm_compute; reflexivity.
  - vm_compute; reflexivity.
  - right. vm_compute; reflexivity.
  - vm_compute; reflexivity.
  - vm_compute; reflexivity.
  - discriminate.
  - vm_compute. discriminate.
  - vm_compute; reflexivity.
Defined.

Lemma lookup_outside k l : ~ In k (map fst l) -> lookup k l = None.
Proof.
  induction l as [|[k' v] l IH]; intro H; [reflexivity|].
  cbn [lookup]. destruct (String.eqb_spec k k') as [->|N].
  - exfalso. apply H. left. reflexivity.
  - apply IH. intro K. apply H. right. exact K.
Qed.

(** Property X20.  With a persona id that is neither a known one nor
    the name of a member of [Object.prototype], the request is still
    made of preamble turn, acknowledgment, history and
    message, but the text of the preamble is [undefined], which
    [JSON.stringify] drops, so that the first turn goes out with an
    empty part; the name shown for such an id is that of the default
    persona. *)
Theorem unknown_persona_sends_no_preamble id h m :
  ~ In id known_ids -> ~ In id inherited_names ->
  build_contents (VStr id) (VArr h) m
  = Ok (turn "user" VUndefined :: turn "model" (VStr acknowledgment)
          :: h ++ [ turn "user" (VStr m) ])%list
  /\ jsonify (turn "user" VUndefined)
     = VObj [ ("role", VStr "user"); ("parts", VArr [ VObj [] ]) ]
  /\ getPersonalityName (VStr id) = Ok (VStr "Стандартный").
Proof.
  intros N _. split; [|split].
  - rewrite build_contents_array. unfold assembled, preamble.
    rewrite (lookup_outside id CONFIG.PERSONALITIES N). reflexivity.
  - reflexivity.
  - unfold getPersonalityName. cbn [ToString obind].
    rewrite (lookup_outside id names N). reflexivity.
Qed.

Lemma unknown_persona_sends_no_preamble_witness :
  getPersonalityName (VStr "hacker") = Ok (VStr "Стандартный").
Proof.
  apply (unknown_persona_sends_no_preamble "hacker" [] "Hello").
  - vm_compute. intros [H|[H|[H|[H|[H|H]]]]]; try discriminate H. exact H.
  - unfold inherited_names. intro H.
    repeat (destruct H as [H|H]; [discriminate H|]). exact H.
Defined.

(** ** Conversations in which exchanges fail *)

Lemma exchange_once_failed id key h x w e :
  key <> EmptyString -> ready id key h w ->
  trim (typed x) <> EmptyString ->
  callGeminiAPI_response (answer x) = Throw e ->
  exists w', exchange_once x w = (Ok tt, w') /\ ready id key h w'.
Proof.
  intros Hkey [Hh [Hp [Hl Hk]]] Hm Hr.
  unfold exchange_once. step. unfold sendMessage.
  erewrite bind_ok.
  2: { apply (sendMessage_begin_sends _ key id h); fields; assumption. }
  cbv beta iota. rewrite (sendMessage_resume_failed _ _ _ _ Hr).
  eexists. split; [reflexivity|]. unfold ready. fields. auto.
Qed.

Lemma converse_mixed id key xs : forall h w,
  key <> EmptyString -> ready id key h w -> Forall answered_or_failed xs ->
  exists w',
    converse xs w = (Ok tt, w')
    /\ ready id key
         (fold_left (fun acc x => capped (acc ++ appended x))
                    (filter succeeded xs) h) w'.
Proof.
  induction xs as [|x xs IH]; intros h w Hkey Hw Hxs.
  - exists w. split; [reflexivity | exact Hw].
  - inversion Hxs as [|? ? [Hm Hx] Hrest]; subst.
    cbn [converse filter]. destruct Hx as [[reply Hr]|[e Hr]].
    + destruct (exchange_once_ok id key h x w Hkey Hw) as [w1 [E1 R1]];
        [split; eauto|].
      destruct (IH _ w1 Hkey R1 Hrest) as [w2 [E2 R2]].
      exists w2. erewrite bind_ok by exact E1. split; [exact E2|].
      unfold succeeded. rewrite Hr. exact R2.
    + destruct (exchange_once_failed id key h x w e Hkey Hw Hm Hr) as [w1 [E1 R1]].
      destruct (IH _ w1 Hkey R1 Hrest) as [w2 [E2 R2]].
      exists w2. erewrite bind_ok by exact E1. split; [exact E2|].
      unfold succeeded. rewrite Hr. exact R2.
Qed.

Lemma skipn_pairs k : forall ys,
  skipn (2 * k) (flat_map appended ys) = flat_map appended (skipn k ys).
Proof.
  induction k as [|k IH]; intros ys; [reflexivity|].
  destruct ys as [|y ys]; [reflexivity|].
  replace (2 * S k)%nat with (S (S (2 * k))) by lia.
  cbn [flat_map appended app skipn]. apply IH.
Qed.

Lemma capped_pairs ys :
  capped (flat_map appended ys) = flat_map appended (slice_last 10 ys).
Proof.
  unfold capped, slice_last. rewrite appended_length.
  replace (2 * List.length ys - Z.to_nat CONFIG.MAX_HISTORY_LENGTH)%nat
    with (2 * (List.length ys - 10))%nat by (cbn; lia).
  apply skipn_pairs.
Qed.

(** Property X21.  From an empty history, after any sequence of
    exchanges each of which is answered with a text or fails, the
    history is the turns of the last 10 answered exchanges, in order:
    failed exchanges leave no trace in it.  Nothing is raised and the
    busy flag ends clear. *)
Theorem history_is_the_last_ten_answered_exchanges w id key xs :
  conversationHistory w = VArr [] ->
  currentPersonality w = VStr id ->
  isLoading w = false ->
  gemini_api_key w = Some key -> key <> EmptyString ->
  Forall answered_or_failed xs ->
  fst (converse xs w) = Ok tt
  /\ conversationHistory (snd (converse xs w))
     = VArr (flat_map appended (slice_last 10 (filter succeeded xs)))
  /\ isLoading (snd (converse xs w)) = false.
Proof.
  intros Hh Hp Hl Hk Hkey Hxs.
  destruct (converse_mixed id key xs [] w Hkey (conj Hh (conj Hp (conj Hl Hk))) Hxs)
    as [w' [E [R [_ [R3 _]]]]].
  rewrite capped_fold in R by (cbn; lia). cbn [app] in R.
  rewrite capped_pairs in R. rewrite E. cbn [fst snd]. auto.
Qed.

Lemma history_is_the_last_ten_answered_exchanges_witness :
  fst (converse (failing :: eleven_exchanges) with_key) = Ok tt
  /\ conversationHistory (snd (converse (failing :: eleven_exchanges) with_key))
     = VArr (flat_map appended
               (slice_last 10 (filter succeeded (failing :: eleven_exchanges))))
  /\ isLoading (snd (converse (failing :: eleven_exchanges) with_key)) = false.
Proof.
  apply (history_is_the_last_ten_answered_exchanges with_key "default" "secret"
           (failing :: eleven_exchanges)); try (vm_compute; reflexivity).
  - vm_compute; discriminate.
  - unfold eleven_exchanges.
    repeat (apply Forall_cons;
            [ split;
              [ vm_compute; discriminate
              | first [ left; eexists; vm_compute; reflexivity
                      | right; eexists; vm_compute; reflexivity ] ]
            | ]).
    apply Forall_nil.
Defined.
